(** * openweatherwrap: request, response and error contract

    A shallow embedding of [openweatherwrap/errors.py] and
    [openweatherwrap/api.py].  Python values are modelled by small inductive
    types, [str] by [string], [int] by [Z], the class statements of
    [errors.py] by a table of bases.  Every constructor and method of the
    wrappers is a computation in a state-and-exception monad whose state is
    the list of network calls made so far.  The geocoder (Nominatim), the HTTP
    transport (requests) and the interpreter's rendering of floats are the
    fields of the class [Collaborators], over which the wrappers are
    generic. *)

From Stdlib Require Import ZArith QArith Bool List String Ascii Lia.
From Stdlib Require Import DecimalString.
Import ListNotations.
Set Warnings "-register-all".
Local Open Scope string_scope.
Local Open Scope Z_scope.

(** ** Python values *)

(** A Python [float]: a finite value (every finite binary64 is a rational),
    an infinity or a nan. *)
Inductive pyfloat : Type :=
| FFin (q : Q)
| FInf (negative : bool)
| FNaN.

(** An [int] or a [float]. *)
Inductive number : Type :=
| NInt (z : Z)
| NFloat (f : pyfloat).

(** The objects that a caller may put in a location tuple. *)
Inductive pyval : Type :=
| VNone
| VNum (n : number)
| VStr (s : string).

(** [lo <= n], for an [int] bound [lo]; a comparison with nan is false. *)
Definition int_le_num (lo : Z) (n : number) : bool :=
  match n with
  | NInt z => lo <=? z
  | NFloat (FFin q) => Qle_bool (inject_Z lo) q
  | NFloat (FInf negative) => negb negative
  | NFloat FNaN => false
  end.

(** [n <= hi], for an [int] bound [hi]. *)
Definition num_le_int (n : number) (hi : Z) : bool :=
  match n with
  | NInt z => z <=? hi
  | NFloat (FFin q) => Qle_bool q (inject_Z hi)
  | NFloat (FInf negative) => negative
  | NFloat FNaN => false
  end.

(** The chained comparison [lo <= n <= hi]. *)
Definition between (lo : Z) (n : number) (hi : Z) : bool :=
  int_le_num lo n && num_le_int n hi.

(** [str(z)] for an [int]. *)
Definition str_int (z : Z) : string :=
  NilZero.string_of_int (Z.to_int z).

(** ** Python strings *)

(** [s.startswith(p)] *)
Fixpoint startswith (p s : string) : bool :=
  match p, s with
  | EmptyString, _ => true
  | String a p', String b s' => Ascii.eqb a b && startswith p' s'
  | String _ _, EmptyString => false
  end.

(** [p in s] *)
Fixpoint contains (p s : string) : bool :=
  startswith p s ||
  match s with
  | EmptyString => false
  | String _ s' => contains p s'
  end.


(** [c in s] for a character. *)
Fixpoint has_char (c : ascii) (s : string) : bool :=
  match s with
  | EmptyString => false
  | String a s' => Ascii.eqb a c || has_char c s'
  end.

(** [sep.join(l)] *)
Fixpoint join (sep : string) (l : list string) : string :=
  match l with
  | [] => ""
  | [x] => x
  | x :: rest => x ++ sep ++ join sep rest
  end.

(** The scan of [str.replace] for a non-empty [old]: [skip] characters of a
    match found earlier are still to be dropped; at a position where nothing
    is pending, a match of [old] emits [new] and the scan goes on behind the
    match, so the occurrences replaced are the leftmost non-overlapping
    ones. *)
Fixpoint replace_scan (old new : string) (skip : nat) (s : string) : string :=
  match s with
  | EmptyString => EmptyString
  | String c s' =>
      match skip with
      | S k => replace_scan old new k s'
      | O =>
          if startswith old s
          then new ++ replace_scan old new (Nat.pred (String.length old)) s'
          else String c (replace_scan old new O s')
      end
  end.

(** With an empty [old], [str.replace] puts [new] before every character and
    at the end. *)
Fixpoint replace_empty (new s : string) : string :=
  match s with
  | EmptyString => new
  | String c s' => new ++ String c (replace_empty new s')
  end.

(** [s.replace(old, new)] *)
Definition replace (old new s : string) : string :=
  match old with
  | EmptyString => replace_empty new s
  | String _ _ => replace_scan old new O s
  end.

(** Truth value of a [str]. *)
Definition str_truthy (s : string) : bool :=
  match s with
  | EmptyString => false
  | String _ _ => true
  end.

(** Truth value of a [list]. *)
Definition list_truthy {A : Type} (l : list A) : bool :=
  match l with
  | [] => false
  | _ :: _ => true
  end.

(** ** Classes and exceptions *)

(** The classes that take part in error handling: the builtins and the five
    classes of [errors.py]. *)
Inductive pyclass : Type :=
| object_
| BaseException
| Exception_
| TypeError
| ValueError
| AttributeError
| JSONDecodeError
| OpenWeatherMapException
| SubscriptionLevelError
| InvalidAPIKeyError
| NotFoundError
| TooManyRequestsError.

Definition pyclass_eqb (c d : pyclass) : bool :=
  match c, d with
  | object_, object_ | BaseException, BaseException
  | Exception_, Exception_ | TypeError, TypeError | ValueError, ValueError
  | AttributeError, AttributeError | JSONDecodeError, JSONDecodeError
  | OpenWeatherMapException, OpenWeatherMapException
  | SubscriptionLevelError, SubscriptionLevelError
  | InvalidAPIKeyError, InvalidAPIKeyError
  | NotFoundError, NotFoundError
  | TooManyRequestsError, TooManyRequestsError => true
  | _, _ => false
  end.

(** The base named in each [class] statement.  [errors.py] writes
    [class OpenWeatherMapException:] with no base, which makes [object] the
    base, and derives the four others from it.  The JSON error of requests
    derives from [ValueError]. *)
Definition base (c : pyclass) : option pyclass :=
  match c with
  | object_ => None
  | BaseException => Some object_
  | Exception_ => Some BaseException
  | TypeError | ValueError | AttributeError => Some Exception_
  | JSONDecodeError => Some ValueError
  | OpenWeatherMapException => Some object_
  | SubscriptionLevelError | InvalidAPIKeyError
  | NotFoundError | TooManyRequestsError => Some OpenWeatherMapException
  end.

Definition class_name (c : pyclass) : string :=
  match c with
  | object_ => "object"
  | BaseException => "BaseException"
  | Exception_ => "Exception"
  | TypeError => "TypeError"
  | ValueError => "ValueError"
  | AttributeError => "AttributeError"
  | JSONDecodeError => "JSONDecodeError"
  | OpenWeatherMapException => "OpenWeatherMapException"
  | SubscriptionLevelError => "SubscriptionLevelError"
  | InvalidAPIKeyError => "InvalidAPIKeyError"
  | NotFoundError => "NotFoundError"
  | TooManyRequestsError => "TooManyRequestsError"
  end.

(** Walk up the chain of bases, at most [fuel] steps. *)
Fixpoint issubclass_upto (fuel : nat) (c d : pyclass) : bool :=
  pyclass_eqb c d ||
  match fuel with
  | O => false
  | S fuel' =>
      match base c with
      | Some p => issubclass_upto fuel' p d
      | None => false
      end
  end.

(** [issubclass(c, d)]; no chain of bases is longer than the class table. *)
Definition issubclass (c d : pyclass) : bool := issubclass_upto 12 c d.

(** A parsed JSON document, as [response.json()] returns it; it is also the
    type of the objects handed to an exception. *)
Inductive json : Type :=
| JNull
| JBool (b : bool)
| JInt (z : Z)
| JFloat (f : pyfloat)
| JStr (s : string)
| JArr (items : list json)
| JObj (fields : list (string * json)).

Definition type_name (j : json) : string :=
  match j with
  | JNull => "NoneType"
  | JBool _ => "bool"
  | JInt _ => "int"
  | JFloat _ => "float"
  | JStr _ => "str"
  | JArr _ => "list"
  | JObj _ => "dict"
  end.

(** An instance of a class, with the argument it was built from. *)
Record instance : Type := Instance {
  inst_class : pyclass;
  inst_arg : json
}.

(** ** Effects: network calls and exceptions *)

Inductive event : Type :=
| Geocode (query : string)
| HttpGet (url : string)
| HttpPost (url : string) (body : json).

Inductive outcome (A : Type) : Type :=
| Returned (a : A)
| Raised (e : instance).
Arguments Returned {A} a.
Arguments Raised {A} e.

(** A computation starts from the log of the network calls made so far and
    ends with a value or a propagating exception, and the extended log. *)
Definition M (A : Type) : Type := list event -> outcome A * list event.

Definition ret {A : Type} (a : A) : M A := fun log => (Returned a, log).

Definition bind {A B : Type} (m : M A) (k : A -> M B) : M B :=
  fun log =>
    match m log with
    | (Returned a, log') => k a log'
    | (Raised e, log') => (Raised e, log')
    end.

Definition emit (ev : event) : M unit := fun log => (Returned tt, (log ++ [ev])%list).

Definition throw {A : Type} (e : instance) : M A := fun log => (Raised e, log).

Notation "x <- m ;; k" := (bind m (fun x => k))
  (at level 61, m at next level, right associativity).
Notation "m ;;; k" := (bind m (fun _ => k))
  (at level 61, right associativity).

(** [try: body / except Exception: handler] *)
Definition try_except_Exception {A : Type} (body handler : M A) : M A :=
  fun log =>
    match body log with
    | (Returned a, log') => (Returned a, log')
    | (Raised e, log') =>
        if issubclass (inst_class e) Exception_
        then handler log'
        else (Raised e, log')
    end.

(** The call [c(arg)].  A class below [BaseException] stores its arguments;
    a class that inherits [__init__] and [__new__] from [object] accepts
    none. *)
Definition construct (c : pyclass) (arg : json) : M instance :=
  if issubclass c BaseException
  then ret (Instance c arg)
  else throw (Instance TypeError (JStr (class_name c ++ "() takes no arguments"))).

(** The statement [raise obj]. *)
Definition raise_ {A : Type} (obj : instance) : M A :=
  if issubclass (inst_class obj) BaseException
  then throw obj
  else throw (Instance TypeError (JStr "exceptions must derive from BaseException")).

(** The statement [raise c(arg)]. *)
Definition raise_new {A : Type} (c : pyclass) (arg : json) : M A :=
  obj <- construct c arg ;; raise_ obj.

(** Run a computation on an empty log. *)
Definition run {A : Type} (m : M A) : outcome A * list event := m [].

(** ** HTTP responses *)

(** What requests hands back: [json_body] is [None] when [response.json()]
    raises, that is when the body is not a JSON document. *)
Record response : Type := Response {
  status_code : Z;
  text : string;
  content : string;
  json_body : option json
}.

(** [response.json()]; the error carries the parser's text, of which only the
    class matters here. *)
Definition response_json (data : response) : M json :=
  match json_body data with
  | Some j => ret j
  | None => throw (Instance JSONDecodeError (JStr "Expecting value"))
  end.

Fixpoint lookup (key : string) (fields : list (string * json)) : option json :=
  match fields with
  | [] => None
  | (k, v) :: rest => if String.eqb k key then Some v else lookup key rest
  end.

(** [obj.get(key, default)]: only a dict has the method. *)
Definition get (obj : json) (key : string) (default : json) : M json :=
  match obj with
  | JObj fields =>
      match lookup key fields with
      | Some v => ret v
      | None => ret default
      end
  | _ => throw (Instance AttributeError
                  (JStr ("'" ++ type_name obj ++ "' object has no attribute 'get'")))
  end.

(** The [try]/[except] that every method runs on a response that is not a
    success. *)
Definition error_message (data : response) : M json :=
  try_except_Exception
    (j <- response_json data ;; get j "message" (JStr (text data)))
    (ret (JStr (text data))).

(** The [match data.status_code] that follows it. *)
Definition raise_for_status {A : Type} (status : Z) (message : json) : M A :=
  if status =? 400000 then raise_new SubscriptionLevelError message
  else if status =? 401 then raise_new InvalidAPIKeyError message
  else if status =? 404 then raise_new NotFoundError message
  else if status =? 429 then raise_new TooManyRequestsError message
  else raise_new OpenWeatherMapException message.

(** The [else] branch of every method. *)
Definition fail_with {A : Type} (data : response) : M A :=
  message <- error_message data ;;
  raise_for_status (status_code data) message.

(** The class that the [match] names for a status code. *)
Definition class_for_status (status : Z) : pyclass :=
  if status =? 400000 then SubscriptionLevelError
  else if status =? 401 then InvalidAPIKeyError
  else if status =? 404 then NotFoundError
  else if status =? 429 then TooManyRequestsError
  else OpenWeatherMapException.

(** ** Collaborators

    Three things the wrappers rely on are not part of the package: the
    rendering of a float by [str.format], the Nominatim geocoder and the
    transport of requests.  The geocoder maps a place name to the coordinates
    of its best match, if any; the transport maps a request to the response
    of the server. *)
Class Collaborators : Type := {
  float_str : pyfloat -> string;
  geocode : string -> option (pyfloat * pyfloat);
  http_get : string -> response;
  http_post : string -> json -> list (string * string) -> response
}.

(** The objects a method hands back.  The response classes are those that
    [api.py] imports from [core]; a call of one of them is kept as a term. *)
Inductive body : Type :=
| Parsed (j : json)
| Bytes (b : string).

Inductive retval : Type :=
| OneCallResponse (data : json)
| CurrentWeatherResponse (data : body) (mode : string)
| FiveDayForecastResponse (data : body) (mode : string)
| AirPollutionResponse (data : json)
| GeocodingResponse (data : json)
| WeatherStation (data : json)
| Value (v : json).

(** A location as a caller gives it: [str | tuple]. *)
Inductive location_arg : Type :=
| Name (place : string)
| Tuple (items : list pyval).

Section Requests.
Context `{Collaborators}.

(** What [str.format] writes for a coordinate. *)
Definition format_number (n : number) : string :=
  match n with
  | NInt z => str_int z
  | NFloat f => float_str f
  end.

(** [requests.get(url)] *)
Definition requests_get (url : string) : M response :=
  emit (HttpGet url) ;;; ret (http_get url).

(** [requests.post(url, json=..., headers=...)] *)
Definition requests_post (url : string) (payload : json)
    (headers : list (string * string)) : M response :=
  emit (HttpPost url payload) ;;; ret (http_post url payload headers).
End Requests.

(** ** api.py *)

Module OpenWeatherMapAPI.
Section Class.
Context `{Collaborators}.

Record self : Type := Self {
  api_key : string;
  location : number * number;
  language : string;
  units : string
}.

Definition __init__ (api_key : string) (location : location_arg)
    (language units : string) : M self :=
  match location with
  | Name place =>
      emit (Geocode place) ;;;
      match geocode place with
      | Some (latitude, longitude) =>
          ret (Self api_key (NFloat latitude, NFloat longitude) language units)
      | None =>
          raise_new ValueError
            (JStr "Location not found. Please provide a valid location.")
      end
  | Tuple [VNum lat; VNum lon] =>
      if negb (between (-90) lat 90 && between (-180) lon 180)
      then raise_new ValueError
             (JStr "Latitude must be between -90 and 90, and longitude must be between -180 and 180.")
      else ret (Self api_key (lat, lon) language units)
  | Tuple _ =>
      raise_new ValueError (JStr "Location must be a tuple of (latitude, longitude).")
  end.
End Class.
End OpenWeatherMapAPI.

Module OneCallAPI.
Section Class.
Context `{Collaborators}.

Record self : Type := Self {
  super : OpenWeatherMapAPI.self;
  url : string
}.

Definition __init__ (api_key : string) (location : location_arg)
    (language units : string) : M self :=
  base <- OpenWeatherMapAPI.__init__ api_key location language units ;;
  ret (Self base
         ("https://api.openweathermap.org/data/3.0/onecall?lat="
            ++ format_number (fst (OpenWeatherMapAPI.location base))
            ++ "&lon=" ++ format_number (snd (OpenWeatherMapAPI.location base))
            ++ "&appid=" ++ OpenWeatherMapAPI.api_key base
            ++ "&lang=" ++ OpenWeatherMapAPI.language base
            ++ "&units=" ++ OpenWeatherMapAPI.units base)).

(** The URL that [get_weather] asks for. *)
Definition get_weather_url (s : self) (exclude : list string) : string :=
  let exclude_str := if list_truthy exclude then join "," exclude else "" in
  if str_truthy exclude_str
  then url s ++ "&exclude=" ++ exclude_str
  else url s.

Definition get_weather (s : self) (exclude : list string) : M retval :=
  data <- requests_get (get_weather_url s exclude) ;;
  if status_code data =? 200
  then j <- response_json data ;; ret (OneCallResponse j)
  else fail_with data.

Definition get_timed_weather_url (s : self) (timestamp : Z) : string :=
  replace "onecall?" "onecall/timemachine?" (url s) ++ "&dt=" ++ str_int timestamp.

Definition get_timed_weather (s : self) (timestamp : Z) : M retval :=
  if timestamp <? 283996800
  then raise_new ValueError
         (JStr "Timestamp must be greater than or equal to January 1, 1979 (283996800).")
  else
    data <- requests_get (get_timed_weather_url s timestamp) ;;
    if status_code data =? 200
    then j <- response_json data ;; ret (OneCallResponse j)
    else fail_with data.

Definition get_aggregation_url (s : self) (date : string) : string :=
  replace "onecall?" "onecall/day_summary?" (url s) ++ "&date=" ++ date.

Definition get_aggregation (s : self) (date : string) : M retval :=
  data <- requests_get (get_aggregation_url s date) ;;
  if status_code data =? 200
  then j <- response_json data ;; ret (OneCallResponse j)
  else fail_with data.

Definition get_overview_url (s : self) : string :=
  replace ("&lang=" ++ OpenWeatherMapAPI.language (super s)) ""
    (replace "onecall?" "onecall/overview?" (url s)).

Definition get_overview (s : self) : M retval :=
  data <- requests_get (get_overview_url s) ;;
  if status_code data =? 200
  then
    j <- response_json data ;;
    v <- get j "weather_overview" (JStr "No overview available.") ;;
    ret (Value v)
  else fail_with data.
End Class.
End OneCallAPI.

Module CurrentWeatherAPI.
Section Class.
Context `{Collaborators}.

Record self : Type := Self {
  super : OpenWeatherMapAPI.self;
  mode : string;
  url : string
}.

Definition __init__ (api_key : string) (location : location_arg)
    (language units mode : string) : M self :=
  base <- OpenWeatherMapAPI.__init__ api_key location language units ;;
  if negb (existsb (String.eqb mode) ["xml"; "html"; "json"])
  then raise_new ValueError (JStr "Mode must be either 'xml' or 'html' or 'json.")
  else
    ret (Self base mode
           ("https://api.openweathermap.org/data/2.5/weather?lat="
              ++ format_number (fst (OpenWeatherMapAPI.location base))
              ++ "&lon=" ++ format_number (snd (OpenWeatherMapAPI.location base))
              ++ "&appid=" ++ OpenWeatherMapAPI.api_key base
              ++ "&lang=" ++ OpenWeatherMapAPI.language base
              ++ "&units=" ++ OpenWeatherMapAPI.units base
              ++ "&mode=" ++ mode)).

Definition get_weather (s : self) : M retval :=
  data <- requests_get (url s) ;;
  if status_code data =? 200
  then
    if String.eqb (mode s) "html" then ret (Value (JStr (text data)))
    else if String.eqb (mode s) "xml"
    then ret (CurrentWeatherResponse (Bytes (content data)) (mode s))
    else j <- response_json data ;; ret (CurrentWeatherResponse (Parsed j) (mode s))
  else fail_with data.
End Class.
End CurrentWeatherAPI.

Module FiveDayForecast.
Section Class.
Context `{Collaborators}.

Record self : Type := Self {
  super : OpenWeatherMapAPI.self;
  mode : string;
  count : Z;
  url : string
}.

(** The URL that [__init__] formats before it looks at [count]. *)
Definition base_url (base : OpenWeatherMapAPI.self) (mode : string) : string :=
  "https://api.openweathermap.org/data/2.5/forecast?lat="
    ++ format_number (fst (OpenWeatherMapAPI.location base))
    ++ "&lon=" ++ format_number (snd (OpenWeatherMapAPI.location base))
    ++ "&appid=" ++ OpenWeatherMapAPI.api_key base
    ++ "&lang=" ++ OpenWeatherMapAPI.language base
    ++ "&units=" ++ OpenWeatherMapAPI.units base
    ++ "&mode=" ++ mode.

Definition __init__ (api_key : string) (location : location_arg) (count : Z)
    (language units mode : string) : M self :=
  base <- OpenWeatherMapAPI.__init__ api_key location language units ;;
  if negb (existsb (String.eqb mode) ["xml"; "json"])
  then raise_new ValueError (JStr "Mode must be either 'xml' or 'json'.")
  else
    let url := base_url base mode in
    let url := if count >? 0 then url ++ "&cnt=" ++ str_int count else url in
    ret (Self base mode count url).

Definition get_forecast (s : self) : M retval :=
  data <- requests_get (url s) ;;
  if status_code data =? 200
  then
    if String.eqb (mode s) "xml"
    then ret (FiveDayForecastResponse (Bytes (content data)) (mode s))
    else j <- response_json data ;; ret (FiveDayForecastResponse (Parsed j) (mode s))
  else fail_with data.
End Class.
End FiveDayForecast.

Module AirPollutionAPI.
Section Class.
Context `{Collaborators}.

Record self : Type := Self {
  super : OpenWeatherMapAPI.self;
  url : string
}.

Definition __init__ (api_key : string) (location : location_arg) : M self :=
  base <- OpenWeatherMapAPI.__init__ api_key location "en" "standard" ;;
  ret (Self base
         ("https://api.openweathermap.org/data/2.5/air_pollution?lat="
            ++ format_number (fst (OpenWeatherMapAPI.location base))
            ++ "&lon=" ++ format_number (snd (OpenWeatherMapAPI.location base))
            ++ "&appid=" ++ OpenWeatherMapAPI.api_key base)).

Definition get_current_air_pollution (s : self) : M retval :=
  data <- requests_get (url s) ;;
  if status_code data =? 200
  then j <- response_json data ;; ret (AirPollutionResponse j)
  else fail_with data.

Definition get_air_pollution_forecast (s : self) : M retval :=
  data <- requests_get (replace "air_pollution?" "air_pollution/forecast?" (url s)) ;;
  if status_code data =? 200
  then j <- response_json data ;; ret (AirPollutionResponse j)
  else fail_with data.

Definition get_air_pollution_history (s : self) (start end_ : Z) : M retval :=
  data <- requests_get
            (replace "air_pollution?" "air_pollution/history?" (url s)
               ++ "&start=" ++ str_int start ++ "&end=" ++ str_int end_) ;;
  if status_code data =? 200
  then j <- response_json data ;; ret (AirPollutionResponse j)
  else fail_with data.
End Class.
End AirPollutionAPI.

Module GeocodingAPI.
Section Class.
Context `{Collaborators}.

Record self : Type := Self {
  super : OpenWeatherMapAPI.self;
  url : string
}.

Definition __init__ (api_key : string) : M self :=
  base <- OpenWeatherMapAPI.__init__ api_key
            (Tuple [VNum (NFloat (FFin 0)); VNum (NFloat (FFin 0))]) "en" "standard" ;;
  ret (Self base
         ("https://api.openweathermap.org/geo/1.0/direct?&appid="
            ++ OpenWeatherMapAPI.api_key base)).

(** The URL that [get_by_city] asks for; [state_code] defaults to [None]. *)
Definition get_by_city_url (s : self) (city country : string)
    (state_code : option string) (limit : Z) : string :=
  let url := url s ++ "&q=" ++ city ++ "," ++ country in
  let url :=
    match state_code with
    | Some code => if str_truthy code then url ++ "," ++ code else url
    | None => url
    end in
  url ++ "&limit=" ++ str_int limit.

Definition get_by_city (s : self) (city country : string)
    (state_code : option string) (limit : Z) : M retval :=
  if (limit >? 5) || (limit <? 1)
  then raise_new ValueError (JStr "Limit must be between 1 and 5.")
  else
    data <- requests_get (get_by_city_url s city country state_code limit) ;;
    if status_code data =? 200
    then j <- response_json data ;; ret (GeocodingResponse j)
    else fail_with data.

Definition get_by_zip (s : self) (zip_code country : string) : M retval :=
  data <- requests_get
            (replace "direct?" "zip?" (url s) ++ "&zip=" ++ zip_code ++ "," ++ country) ;;
  if status_code data =? 200
  then j <- response_json data ;; ret (GeocodingResponse j)
  else fail_with data.

Definition get_by_coordinates_url (s : self) (latitude longitude : number)
    (limit : Z) : string :=
  replace "direct?" "reverse?"
    (url s ++ "&lat=" ++ format_number latitude
       ++ "&lon=" ++ format_number longitude ++ "&limit=" ++ str_int limit).

Definition get_by_coordinates (s : self) (latitude longitude : number)
    (limit : Z) : M retval :=
  if (limit >? 5) || (limit <? 1)
  then raise_new ValueError (JStr "Limit must be between 1 and 5.")
  else if negb (between (-90) latitude 90 && between (-180) longitude 180)
  then raise_new ValueError
         (JStr "Latitude must be between -90 and 90, and longitude must be between -180 and 180.")
  else
    data <- requests_get (get_by_coordinates_url s latitude longitude limit) ;;
    if status_code data =? 200
    then j <- response_json data ;; ret (GeocodingResponse j)
    else fail_with data.
End Class.
End GeocodingAPI.

Module WeatherStationAPI.
Section Class.
Context `{Collaborators}.

Record self : Type := Self {
  super : OpenWeatherMapAPI.self;
  url : string;
  headers : list (string * string)
}.

Definition __init__ (api_key : string) : M self :=
  if negb (str_truthy api_key)
  then raise_new ValueError (JStr "API key must be provided.")
  else
    base <- OpenWeatherMapAPI.__init__ api_key
              (Tuple [VNum (NFloat (FFin 0)); VNum (NFloat (FFin 0))]) "en" "standard" ;;
    ret (Self base
           ("https://api.openweathermap.org/data/3.0/stations?appid="
              ++ OpenWeatherMapAPI.api_key base)
           [("Content-Type", "application/json")]).

Definition register_station (s : self) (station_data : json) : M retval :=
  data <- requests_post (url s) station_data (headers s) ;;
  if status_code data =? 201
  then j <- response_json data ;; ret (WeatherStation j)
  else fail_with data.
End Class.
End WeatherStationAPI.

(** ** Invocations

    One constructor per entry point of the package, so that a statement can
    range over all of them. *)
Inductive invocation : Type :=
| New_OneCallAPI (api_key : string) (location : location_arg) (language units : string)
| New_CurrentWeatherAPI (api_key : string) (location : location_arg)
    (language units mode : string)
| New_FiveDayForecast (api_key : string) (location : location_arg) (count : Z)
    (language units mode : string)
| New_AirPollutionAPI (api_key : string) (location : location_arg)
| New_GeocodingAPI (api_key : string)
| New_WeatherStationAPI (api_key : string)
| OneCall_get_weather (s : OneCallAPI.self) (exclude : list string)
| OneCall_get_timed_weather (s : OneCallAPI.self) (timestamp : Z)
| OneCall_get_aggregation (s : OneCallAPI.self) (date : string)
| OneCall_get_overview (s : OneCallAPI.self)
| CurrentWeather_get_weather (s : CurrentWeatherAPI.self)
| FiveDay_get_forecast (s : FiveDayForecast.self)
| AirPollution_get_current (s : AirPollutionAPI.self)
| AirPollution_get_forecast (s : AirPollutionAPI.self)
| AirPollution_get_history (s : AirPollutionAPI.self) (start end_ : Z)
| Geocoding_get_by_city (s : GeocodingAPI.self) (city country : string)
    (state_code : option string) (limit : Z)
| Geocoding_get_by_zip (s : GeocodingAPI.self) (zip_code country : string)
| Geocoding_get_by_coordinates (s : GeocodingAPI.self) (latitude longitude : number)
    (limit : Z)
| WeatherStation_register_station (s : WeatherStationAPI.self) (station_data : json).

(** What a caller sees of a computation run on an empty log: the exception
    that comes out, if any, and the network calls made. *)
Definition observe {A : Type} (m : M A) : option instance * list event :=
  match run m with
  | (Returned _, log) => (None, log)
  | (Raised e, log) => (Some e, log)
  end.

Definition invoke `{Collaborators} (i : invocation) : option instance * list event :=
  match i with
  | New_OneCallAPI k l lang u => observe (OneCallAPI.__init__ k l lang u)
  | New_CurrentWeatherAPI k l lang u m => observe (CurrentWeatherAPI.__init__ k l lang u m)
  | New_FiveDayForecast k l c lang u m => observe (FiveDayForecast.__init__ k l c lang u m)
  | New_AirPollutionAPI k l => observe (AirPollutionAPI.__init__ k l)
  | New_GeocodingAPI k => observe (GeocodingAPI.__init__ k)
  | New_WeatherStationAPI k => observe (WeatherStationAPI.__init__ k)
  | OneCall_get_weather s e => observe (OneCallAPI.get_weather s e)
  | OneCall_get_timed_weather s t => observe (OneCallAPI.get_timed_weather s t)
  | OneCall_get_aggregation s d => observe (OneCallAPI.get_aggregation s d)
  | OneCall_get_overview s => observe (OneCallAPI.get_overview s)
  | CurrentWeather_get_weather s => observe (CurrentWeatherAPI.get_weather s)
  | FiveDay_get_forecast s => observe (FiveDayForecast.get_forecast s)
  | AirPollution_get_current s => observe (AirPollutionAPI.get_current_air_pollution s)
  | AirPollution_get_forecast s => observe (AirPollutionAPI.get_air_pollution_forecast s)
  | AirPollution_get_history s a b => observe (AirPollutionAPI.get_air_pollution_history s a b)
  | Geocoding_get_by_city s c k st l => observe (GeocodingAPI.get_by_city s c k st l)
  | Geocoding_get_by_zip s z k => observe (GeocodingAPI.get_by_zip s z k)
  | Geocoding_get_by_coordinates s la lo l => observe (GeocodingAPI.get_by_coordinates s la lo l)
  | WeatherStation_register_station s d => observe (WeatherStationAPI.register_station s d)
  end.

(** The place name that an invocation hands to the geocoder, if it is a
    constructor called with a name. *)
Definition place_name (i : invocation) : option string :=
  match i with
  | New_OneCallAPI _ (Name p) _ _
  | New_CurrentWeatherAPI _ (Name p) _ _ _
  | New_FiveDayForecast _ (Name p) _ _ _ _
  | New_AirPollutionAPI _ (Name p) => Some p
  | _ => None
  end.

(** A request to the weather service, as opposed to a geocoder lookup. *)
Definition is_http (ev : event) : bool :=
  match ev with
  | HttpGet _ | HttpPost _ _ => true
  | Geocode _ => false
  end.


(** The URL that the overview endpoint is described with: the one-call URL
    with [onecall/overview] for [onecall] and no [lang] parameter, the other
    parameters as the constructor wrote them. *)
Definition overview_url_without_language `{Collaborators} (s : OneCallAPI.self) : string :=
  "https://api.openweathermap.org/data/3.0/onecall/overview?lat="
    ++ format_number (fst (OpenWeatherMapAPI.location (OneCallAPI.super s)))
    ++ "&lon=" ++ format_number (snd (OpenWeatherMapAPI.location (OneCallAPI.super s)))
    ++ "&appid=" ++ OpenWeatherMapAPI.api_key (OneCallAPI.super s)
    ++ "&units=" ++ OpenWeatherMapAPI.units (OneCallAPI.super s).

(** ** A small world for the examples *)

(** The rendering of the floats that the examples use. *)
Definition sample_float_str (f : pyfloat) : string :=
  match f with
  | FFin q =>
      if Qeq_bool q (515 # 10) then "51.5"
      else if Qeq_bool q (- (12 # 100)) then "-0.12"
      else "0.0"
  | FInf false => "inf"
  | FInf true => "-inf"
  | FNaN => "nan"
  end.

(** A geocoder that knows one place. *)
Definition sample_geocode (place : string) : option (pyfloat * pyfloat) :=
  if String.eqb place "London"
  then Some (FFin (515 # 10), FFin (- (12 # 100)))
  else None.

(** A server that answers every request with [r]. *)
Definition replying (r : response) : Collaborators := {|
  float_str := sample_float_str;
  geocode := sample_geocode;
  http_get := fun _ => r;
  http_post := fun _ _ _ => r
|}.

Definition london : location_arg :=
  Tuple [VNum (NFloat (FFin (515 # 10))); VNum (NFloat (FFin (- (12 # 100))))].

(** The clients that the constructors build for [london]. *)
Definition sample_base : OpenWeatherMapAPI.self :=
  OpenWeatherMapAPI.Self "key"
    (NFloat (FFin (515 # 10)), NFloat (FFin (- (12 # 100)))) "en" "metric".

Definition sample_onecall : OneCallAPI.self :=
  OneCallAPI.Self sample_base
    "https://api.openweathermap.org/data/3.0/onecall?lat=51.5&lon=-0.12&appid=key&lang=en&units=metric".

Definition sample_current : CurrentWeatherAPI.self :=
  CurrentWeatherAPI.Self sample_base "json"
    "https://api.openweathermap.org/data/2.5/weather?lat=51.5&lon=-0.12&appid=key&lang=en&units=metric&mode=json".

Definition sample_geocoding : GeocodingAPI.self :=
  GeocodingAPI.Self
    (OpenWeatherMapAPI.Self "key" (NFloat (FFin 0), NFloat (FFin 0)) "en" "standard")
    "https://api.openweathermap.org/geo/1.0/direct?&appid=key".

(** A string in JSON quotes. *)
Definition quoted (s : string) : string :=
  String (ascii_of_nat 34) s ++ String (ascii_of_nat 34) EmptyString.

(** The text of a JSON object with a [cod] and a [message]. *)
Definition error_text (cod message : string) : string :=
  "{" ++ quoted "cod" ++ ":" ++ cod ++ "," ++ quoted "message" ++ ":"
    ++ quoted message ++ "}".

(** An answer of the service with a JSON error body. *)
Definition error_reply (status : Z) (message : string) : response :=
  Response status (error_text (str_int status) message)
    (error_text (str_int status) message)
    (Some (JObj [("cod", JInt status); ("message", JStr message)])).

(** An answer whose body is not JSON, as a gateway in front of the service
    sends it. *)
Definition plain_reply (status : Z) (body : string) : response :=
  Response status body body None.

(** ** Notions used in the statements *)

(** The classes of the exceptions that come out of the handling of a
    response. *)
Definition remote_class (c : pyclass) : bool :=
  match c with
  | TypeError | JSONDecodeError | AttributeError => true
  | _ => false
  end.

(** A computation that makes no network call and lets out exceptions of
    those classes only. *)
Definition settles {A : Type} (m : M A) : Prop :=
  forall log,
    (exists a, m log = (Returned a, log))
    \/ (exists e, m log = (Raised e, log) /\ remote_class (inst_class e) = true).

(** ** The rest of the base class, and the anatomy of a method call *)

(** [OpenWeatherMapAPI.__str__]; [name] is [self.__class__.__name__], the
    class the object was built from.  A tuple prints its items with [repr],
    which writes a number as [str] does. *)
Definition __str__ `{Collaborators} (name : string) (s : OpenWeatherMapAPI.self) : string :=
  name ++ "(api_key=" ++ OpenWeatherMapAPI.api_key s
    ++ ", location=(" ++ format_number (fst (OpenWeatherMapAPI.location s))
    ++ ", " ++ format_number (snd (OpenWeatherMapAPI.location s)) ++ ")"
    ++ ", language=" ++ OpenWeatherMapAPI.language s
    ++ ", units=" ++ OpenWeatherMapAPI.units s ++ ")".

(** The invocations that are method calls. *)
Definition is_method (i : invocation) : bool :=
  match i with
  | New_OneCallAPI _ _ _ _ | New_CurrentWeatherAPI _ _ _ _ _
  | New_FiveDayForecast _ _ _ _ _ _ | New_AirPollutionAPI _ _
  | New_GeocodingAPI _ | New_WeatherStationAPI _ => false
  | _ => true
  end.

(** The guard that a method puts before its request: the tests of
    [get_timed_weather], [get_by_city] and [get_by_coordinates]; the other
    methods have none. *)
Definition passes_validation (i : invocation) : bool :=
  match i with
  | OneCall_get_timed_weather _ timestamp => negb (timestamp <? 283996800)
  | Geocoding_get_by_city _ _ _ _ limit => negb ((limit >? 5) || (limit <? 1))
  | Geocoding_get_by_coordinates _ latitude longitude limit =>
      negb ((limit >? 5) || (limit <? 1))
      && (between (-90) latitude 90 && between (-180) longitude 180)
  | _ => true
  end.

(** The request that a method sends once its guard is passed. *)
Definition request `{Collaborators} (i : invocation) : option event :=
  match i with
  | OneCall_get_weather s e => Some (HttpGet (OneCallAPI.get_weather_url s e))
  | OneCall_get_timed_weather s t => Some (HttpGet (OneCallAPI.get_timed_weather_url s t))
  | OneCall_get_aggregation s d => Some (HttpGet (OneCallAPI.get_aggregation_url s d))
  | OneCall_get_overview s => Some (HttpGet (OneCallAPI.get_overview_url s))
  | CurrentWeather_get_weather s => Some (HttpGet (CurrentWeatherAPI.url s))
  | FiveDay_get_forecast s => Some (HttpGet (FiveDayForecast.url s))
  | AirPollution_get_current s => Some (HttpGet (AirPollutionAPI.url s))
  | AirPollution_get_forecast s =>
      Some (HttpGet (replace "air_pollution?" "air_pollution/forecast?"
                       (AirPollutionAPI.url s)))
  | AirPollution_get_history s a b =>
      Some (HttpGet (replace "air_pollution?" "air_pollution/history?"
                       (AirPollutionAPI.url s)
                       ++ "&start=" ++ str_int a ++ "&end=" ++ str_int b))
  | Geocoding_get_by_city s c k st l =>
      Some (HttpGet (GeocodingAPI.get_by_city_url s c k st l))
  | Geocoding_get_by_zip s z k =>
      Some (HttpGet (replace "direct?" "zip?" (GeocodingAPI.url s)
                       ++ "&zip=" ++ z ++ "," ++ k))
  | Geocoding_get_by_coordinates s la lo l =>
      Some (HttpGet (GeocodingAPI.get_by_coordinates_url s la lo l))
  | WeatherStation_register_station s d => Some (HttpPost (WeatherStationAPI.url s) d)
  | _ => None
  end.

(** The answer of the transport to that request. *)
Definition reply `{Collaborators} (i : invocation) : option response :=
  match i, request i with
  | WeatherStation_register_station s d, _ =>
      Some (http_post (WeatherStationAPI.url s) d (WeatherStationAPI.headers s))
  | _, Some (HttpGet url) => Some (http_get url)
  | _, _ => None
  end.

(** The status that a method takes for a success. *)
Definition success_status (i : invocation) : Z :=
  match i with
  | WeatherStation_register_station _ _ => 201
  | _ => 200
  end.

(** A method call whose client is one that the constructor of its class
    hands back. *)
Definition built `{Collaborators} (i : invocation) : Prop :=
  match i with
  | OneCall_get_weather s _ | OneCall_get_timed_weather s _
  | OneCall_get_aggregation s _ | OneCall_get_overview s =>
      exists k l lang u log, run (OneCallAPI.__init__ k l lang u) = (Returned s, log)
  | CurrentWeather_get_weather s =>
      exists k l lang u m log,
        run (CurrentWeatherAPI.__init__ k l lang u m) = (Returned s, log)
  | FiveDay_get_forecast s =>
      exists k l c lang u m log,
        run (FiveDayForecast.__init__ k l c lang u m) = (Returned s, log)
  | AirPollution_get_current s | AirPollution_get_forecast s
  | AirPollution_get_history s _ _ =>
      exists k l log, run (AirPollutionAPI.__init__ k l) = (Returned s, log)
  | Geocoding_get_by_city s _ _ _ _ | Geocoding_get_by_zip s _ _
  | Geocoding_get_by_coordinates s _ _ _ =>
      exists k log, run (GeocodingAPI.__init__ k) = (Returned s, log)
  | WeatherStation_register_station s _ =>
      exists k log, run (WeatherStationAPI.__init__ k) = (Returned s, log)
  | _ => True
  end.

(** The host of the weather service, with its scheme. *)
Definition service_host : string := "https://api.openweathermap.org/".

(** The URL of a request to the weather service. *)
Definition url_of (ev : event) : option string :=
  match ev with
  | HttpGet url | HttpPost url _ => Some url
  | Geocode _ => None
  end.

(** More of the small world: answers with a body that is a success, and the
    clients of the other wrappers. *)
Definition overview_reply : response :=
  Response 200
    ("{" ++ quoted "weather_overview" ++ ":" ++ quoted "clear sky" ++ "}")
    ("{" ++ quoted "weather_overview" ++ ":" ++ quoted "clear sky" ++ "}")
    (Some (JObj [("weather_overview", JStr "clear sky")])).

Definition station_reply : response :=
  Response 201
    ("{" ++ quoted "ID" ++ ":" ++ quoted "583436dd9643a9000196b8d6" ++ "}")
    ("{" ++ quoted "ID" ++ ":" ++ quoted "583436dd9643a9000196b8d6" ++ "}")
    (Some (JObj [("ID", JStr "583436dd9643a9000196b8d6")])).

Definition sample_current_html : CurrentWeatherAPI.self :=
  CurrentWeatherAPI.Self sample_base "html"
    "https://api.openweathermap.org/data/2.5/weather?lat=51.5&lon=-0.12&appid=key&lang=en&units=metric&mode=html".

Definition sample_air : AirPollutionAPI.self :=
  AirPollutionAPI.Self
    (OpenWeatherMapAPI.Self "key"
       (NFloat (FFin (515 # 10)), NFloat (FFin (- (12 # 100)))) "en" "standard")
    "https://api.openweathermap.org/data/2.5/air_pollution?lat=51.5&lon=-0.12&appid=key".

Definition sample_station : WeatherStationAPI.self :=
  WeatherStationAPI.Self
    (OpenWeatherMapAPI.Self "key" (NFloat (FFin 0), NFloat (FFin 0)) "en" "standard")
    "https://api.openweathermap.org/data/3.0/stations?appid=key"
    [("Content-Type", "application/json")].

(** [lo <= n <= hi] as a proposition: integers are compared as integers,
    finite floats by their value, and nothing else is in range. *)
Definition in_range (lo : Z) (n : number) (hi : Z) : Prop :=
  match n with
  | NInt z => lo <= z <= hi
  | NFloat (FFin q) => (inject_Z lo <= q)%Q /\ (q <= inject_Z hi)%Q
  | NFloat _ => False
  end.

(** The number of positions of [s] at which [p] starts. *)
Fixpoint occurrences (p s : string) : nat :=
  ((if startswith p s then 1 else 0)
   + match s with
     | EmptyString => 0
     | String _ s' => occurrences p s'
     end)%nat.

(** ** The string operations on examples *)

Example str_int_neg : str_int (-12) = "-12".
Proof. reflexivity. Qed.

Example str_int_zero : str_int 0 = "0".
Proof. reflexivity. Qed.

Example replace_all_occurrences : replace "ab" "X" "abcabab" = "XcXX".
Proof. reflexivity. Qed.

Example replace_non_overlapping : replace "aa" "b" "aaa" = "ba".
Proof. reflexivity. Qed.

Example replace_empty_old : replace "" "x" "abc" = "xaxbxcx".
Proof. reflexivity. Qed.

Example join_three : join "," ["current"; "minutely"; "alerts"] = "current,minutely,alerts".
Proof. reflexivity. Qed.

(** ** Facts about strings *)

Lemma append_empty_r (s : string) : s ++ EmptyString = s.
Proof. induction s as [|c s IH]; simpl; [reflexivity | now rewrite IH]. Qed.

Lemma append_assoc (a b c : string) : (a ++ b) ++ c = a ++ (b ++ c).
Proof. induction a as [|x a IH]; simpl; [reflexivity | now rewrite IH]. Qed.

Lemma has_char_app (c : ascii) (a b : string) :
  has_char c (a ++ b) = has_char c a || has_char c b.
Proof.
  induction a as [|x a IH]; simpl; [reflexivity|].
  now rewrite IH, orb_assoc.
Qed.

Lemma startswith_refl_app (p b : string) : startswith p (p ++ b) = true.
Proof.
  induction p as [|x p IH]; simpl; [reflexivity|].
  now rewrite Ascii.eqb_refl, IH.
Qed.

(** A match of [p] at the head of [s] puts every character of [p] in [s]. *)
Lemma startswith_has_char (c : ascii) (p s : string) :
  startswith p s = true -> has_char c p = true -> has_char c s = true.
Proof.
  revert s; induction p as [|x p IH]; intros [|y s]; simpl; try discriminate.
  intros Hm Hc.
  apply andb_true_iff in Hm as [Hxy Hm].
  apply Ascii.eqb_eq in Hxy; subst y.
  apply orb_true_iff in Hc as [Hc | Hc].
  - now rewrite Hc.
  - rewrite (IH s Hm Hc). apply orb_true_r.
Qed.

(** ** Facts about [str.replace] *)

(** The characters of a match still to be dropped are dropped. *)
Lemma replace_scan_skip (old new p b : string) :
  replace_scan old new (String.length p) (p ++ b) = replace_scan old new O b.
Proof. induction p as [|x p IH]; simpl; [reflexivity | exact IH]. Qed.

(** A text that opens with [old] has it replaced, and the scan goes on behind
    it. *)
Lemma replace_scan_match (x : ascii) (p new b : string) :
  replace_scan (String x p) new O (String x p ++ b)
  = new ++ replace_scan (String x p) new O b.
Proof.
  change (String x p ++ b) with (String x (p ++ b)).
  cbn [replace_scan].
  change (String x (p ++ b)) with (String x p ++ b).
  rewrite startswith_refl_app.
  cbn [String.length Nat.pred].
  now rewrite replace_scan_skip.
Qed.

(** No match starts in a stretch that lacks the first character of [old]. *)
Lemma replace_scan_pass (x : ascii) (p new a b : string) :
  has_char x a = false ->
  replace_scan (String x p) new O (a ++ b)
  = a ++ replace_scan (String x p) new O b.
Proof.
  induction a as [|y a IH]; intros Hx; [reflexivity|].
  simpl in Hx. apply orb_false_iff in Hx as [Hyx Ha].
  change (String y a ++ b) with (String y (a ++ b)).
  cbn [replace_scan startswith].
  rewrite Ascii.eqb_sym, Hyx. cbn [andb].
  now rewrite (IH Ha).
Qed.

(** A text that lacks some character of [old] is left as it is. *)
Lemma replace_scan_absent (c : ascii) (old new t : string) :
  has_char c old = true -> has_char c t = false ->
  replace_scan old new O t = t.
Proof.
  intros Hold; induction t as [|y t IH]; intros Ht; [reflexivity|].
  cbn [replace_scan].
  destruct (startswith old (String y t)) eqn:Hm.
  - rewrite (startswith_has_char c _ _ Hm Hold) in Ht. discriminate.
  - simpl in Ht. apply orb_false_iff in Ht as [_ Ht].
    now rewrite (IH Ht).
Qed.

(** The two replacements of [get_overview], on a URL whose interpolated
    parts hold no separator of their own. *)
Lemma overview_replace (lat lon key lang units : string) :
  has_char "&" lat = false -> has_char "?" lat = false ->
  has_char "&" lon = false -> has_char "?" lon = false ->
  has_char "&" key = false -> has_char "?" key = false ->
  has_char "?" lang = false ->
  has_char "&" units = false -> has_char "?" units = false ->
  replace ("&lang=" ++ lang) ""
    (replace "onecall?" "onecall/overview?"
       ("https://api.openweathermap.org/data/3.0/onecall?lat=" ++ lat
          ++ "&lon=" ++ lon ++ "&appid=" ++ key ++ "&lang=" ++ lang
          ++ "&units=" ++ units))
  = "https://api.openweathermap.org/data/3.0/onecall/overview?lat=" ++ lat
      ++ "&lon=" ++ lon ++ "&appid=" ++ key ++ "&units=" ++ units.
Proof.
  intros Hlat1 Hlat2 Hlon1 Hlon2 Hk1 Hk2 Hl2 Hu1 Hu2.
  set (rest := lat ++ "&lon=" ++ lon ++ "&appid=" ++ key ++ "&lang=" ++ lang
                 ++ "&units=" ++ units).
  assert (Hpath :
    replace "onecall?" "onecall/overview?"
      ("https://api.openweathermap.org/data/3.0/onecall?lat=" ++ rest)
    = "https://api.openweathermap.org/data/3.0/onecall/overview?lat=" ++ rest).
  { transitivity ("https://api.openweathermap.org/data/3.0/onecall/overview?lat="
                    ++ replace_scan "onecall?" "onecall/overview?" O rest);
      [reflexivity|].
    rewrite (replace_scan_absent "?" "onecall?" _ rest); [reflexivity | reflexivity |].
    unfold rest.
    rewrite !has_char_app, Hlat2, Hlon2, Hk2, Hl2, Hu2. reflexivity. }
  rewrite Hpath. unfold rest. clear rest Hpath.
  change (replace ("&lang=" ++ lang) "") with (replace_scan (String "&" ("lang=" ++ lang)) "" O).
  rewrite replace_scan_pass by reflexivity.
  rewrite replace_scan_pass by assumption.
  set (old := String "&" ("lang=" ++ lang)).
  change (replace_scan old "" O ("&lon=" ++ lon ++ "&appid=" ++ key ++ "&lang=" ++ lang ++ "&units=" ++ units))
    with ("&lon=" ++ replace_scan old "" O (lon ++ "&appid=" ++ key ++ "&lang=" ++ lang ++ "&units=" ++ units)).
  unfold old at 1. rewrite replace_scan_pass by assumption. fold old.
  change (replace_scan old "" O ("&appid=" ++ key ++ "&lang=" ++ lang ++ "&units=" ++ units))
    with ("&appid=" ++ replace_scan old "" O (key ++ "&lang=" ++ lang ++ "&units=" ++ units)).
  unfold old at 1. rewrite replace_scan_pass by assumption. fold old.
  change ("&lang=" ++ lang ++ "&units=" ++ units) with (old ++ "&units=" ++ units).
  unfold old. rewrite replace_scan_match.
  change (replace_scan (String "&" ("lang=" ++ lang)) "" O ("&units=" ++ units))
    with ("&" ++ replace_scan (String "&" ("lang=" ++ lang)) "" O ("units=" ++ units)).
  rewrite (replace_scan_absent "&" _ _ ("units=" ++ units));
    [reflexivity | reflexivity |].
  rewrite has_char_app, Hu1. reflexivity.
Qed.

(** ** Facts about [str(int)] *)

Lemma string_of_uint_chars (c : ascii) (d : Decimal.uint) :
  has_char c "-0123456789" = false ->
  has_char c (NilEmpty.string_of_uint d) = false.
Proof.
  intros Hc. cbn [has_char] in Hc.
  repeat (apply orb_false_iff in Hc as [? Hc]).
  induction d; cbn [NilEmpty.string_of_uint has_char];
    rewrite ?IHd; try reflexivity;
    match goal with E : _ = false |- _ => now rewrite E end.
Qed.

(** [str] of an [int] writes digits and a sign, nothing else. *)
Lemma str_int_chars (c : ascii) (z : Z) :
  has_char c "-0123456789" = false -> has_char c (str_int z) = false.
Proof.
  intros Hc. unfold str_int, NilZero.string_of_int, NilZero.string_of_uint.
  pose proof (string_of_uint_chars c) as Hd.
  assert (H0 : has_char c "0" = false).
  { cbn [has_char] in Hc |- *. repeat (apply orb_false_iff in Hc as [? Hc]).
    match goal with E : Ascii.eqb "0" c = false |- _ => now rewrite E end. }
  assert (Hm : Ascii.eqb "-" c = false).
  { cbn [has_char] in Hc. now apply orb_false_iff in Hc as [? _]. }
  destruct (Z.to_int z) as [d | d]; destruct d;
    cbn [has_char]; rewrite ?Hm; cbn [orb];
    try exact H0;
    match goal with
    | |- has_char c (NilEmpty.string_of_uint ?u) = false => apply (Hd u Hc)
    end.
Qed.

(** ** Facts about the monad *)

Lemma bind_returned {A B : Type} (m : M A) (k : A -> M B) log b log' :
  bind m k log = (Returned b, log') ->
  exists a log1, m log = (Returned a, log1) /\ k a log1 = (Returned b, log').
Proof.
  unfold bind. destruct (m log) as [[a | e] log1]; intros E.
  - now exists a, log1.
  - discriminate.
Qed.

Lemma bind_raised {A B : Type} (m : M A) (k : A -> M B) log e log' :
  bind m k log = (Raised e, log') ->
  m log = (Raised e, log')
  \/ exists a log1, m log = (Returned a, log1) /\ k a log1 = (Raised e, log').
Proof.
  unfold bind. destruct (m log) as [[a | e1] log1]; intros E.
  - right. now exists a, log1.
  - left. now inversion E.
Qed.

(** [ValueError] is an exception class: raising it works. *)
Lemma raise_new_ValueError {A : Type} (message : json) (log : list event) :
  raise_new (A := A) ValueError message log = (Raised (Instance ValueError message), log).
Proof. reflexivity. Qed.

(** The classes of [errors.py] are not: the call of the class fails first. *)
Lemma raise_new_not_an_exception {A : Type} (c : pyclass) (message : json)
    (log : list event) :
  issubclass c BaseException = false ->
  raise_new (A := A) c message log
  = (Raised (Instance TypeError (JStr (class_name c ++ "() takes no arguments"))), log).
Proof.
  intros Hc. unfold raise_new, bind, construct. now rewrite Hc.
Qed.

Lemma raise_for_status_class {A : Type} (status : Z) (message : json) :
  raise_for_status (A := A) status message
  = raise_new (class_for_status status) message.
Proof.
  unfold raise_for_status, class_for_status.
  repeat match goal with |- context [?a =? ?b] => destruct (a =? b) end; reflexivity.
Qed.

Lemma class_for_status_not_an_exception (status : Z) :
  issubclass (class_for_status status) BaseException = false.
Proof.
  unfold class_for_status.
  repeat match goal with |- context [?a =? ?b] => destruct (a =? b) end; reflexivity.
Qed.

(** The [try]/[except] never lets an exception out and makes no call. *)
Lemma error_message_returns (data : response) (log : list event) :
  exists message, error_message data log = (Returned message, log).
Proof.
  unfold error_message, try_except_Exception, bind, response_json, get.
  destruct (json_body data) as [j|]; cbn.
  - destruct j as [| | | | | |fields]; cbn; try (eexists; reflexivity).
    destruct (lookup "message" fields); cbn; eexists; reflexivity.
  - eexists; reflexivity.
Qed.

(** What every method does with a response that is not a success: the raise
    statement picked by the status code fails with a [TypeError]. *)
Lemma fail_with_TypeError {A : Type} (data : response) (log : list event) :
  fail_with (A := A) data log
  = (Raised (Instance TypeError
       (JStr (class_name (class_for_status (status_code data))
                ++ "() takes no arguments"))), log).
Proof.
  unfold fail_with, bind.
  destruct (error_message_returns data log) as [message ->].
  rewrite raise_for_status_class.
  apply raise_new_not_an_exception, class_for_status_not_an_exception.
Qed.

(** ** The sample clients are those of the constructors *)

Example sample_onecall_built (r : response) :
  run (OneCallAPI.__init__ (H := replying r) "key" london "en" "metric")
  = (Returned sample_onecall, []).
Proof. reflexivity. Qed.

Example sample_current_built (r : response) :
  run (CurrentWeatherAPI.__init__ (H := replying r) "key" london "en" "metric" "json")
  = (Returned sample_current, []).
Proof. reflexivity. Qed.

Example sample_geocoding_built (r : response) :
  run (GeocodingAPI.__init__ (H := replying r) "key") = (Returned sample_geocoding, []).
Proof. reflexivity. Qed.

(** ** The response classifier *)

(** The message that the [else] branch extracts: the [message] entry of a
    JSON object when there is one, the raw text in every other case. *)
Lemma error_message_spec (data : response) (log : list event) :
  error_message data log =
  (Returned
     match json_body data with
     | Some (JObj fields) =>
         match lookup "message" fields with
         | Some v => v
         | None => JStr (text data)
         end
     | _ => JStr (text data)
     end, log).
Proof.
  unfold error_message, try_except_Exception, bind, response_json, get.
  destruct (json_body data) as [j|]; cbn; [|reflexivity].
  destruct j as [| | | | | |fields]; cbn; try reflexivity.
  destruct (lookup "message" fields); reflexivity.
Qed.

(** The [match] on the status code names the class of the table. *)
Lemma class_for_status_table :
  class_for_status 400000 = SubscriptionLevelError
  /\ class_for_status 401 = InvalidAPIKeyError
  /\ class_for_status 404 = NotFoundError
  /\ class_for_status 429 = TooManyRequestsError
  /\ forall status,
       status <> 400000 -> status <> 401 -> status <> 404 -> status <> 429 ->
       class_for_status status = OpenWeatherMapException.
Proof.
  repeat split; try reflexivity.
  intros status H1 H2 H3 H4. unfold class_for_status.
  apply Z.eqb_neq in H1, H2, H3, H4. now rewrite H1, H2, H3, H4.
Qed.

(** No status code that an HTTP server can send selects the branch of
    [SubscriptionLevelError]. *)
Lemma subscription_branch_unreachable (status : Z) :
  100 <= status <= 599 -> class_for_status status <> SubscriptionLevelError.
Proof.
  intros Hs. unfold class_for_status.
  destruct (status =? 400000) eqn:E; [apply Z.eqb_eq in E; lia|].
  repeat match goal with |- context [?a =? ?b] => destruct (a =? b) end;
    discriminate.
Qed.

(** The [else] branch never lets a [SubscriptionLevelError] out, whatever the
    status. *)
Lemma fail_with_never_SubscriptionLevelError {A : Type} (data : response)
    (log log' : list event) (e : instance) :
  fail_with (A := A) data log = (Raised e, log') ->
  inst_class e <> SubscriptionLevelError.
Proof.
  rewrite fail_with_TypeError. intros [= <- _]. discriminate.
Qed.

(** For every world and every client, an answer to [get_weather] that is not
    a 200 ends in that [TypeError], after the one request. *)
Lemma get_weather_failure_is_TypeError `{Collaborators} (s : OneCallAPI.self)
    (exclude : list string) :
  status_code (http_get (OneCallAPI.get_weather_url s exclude)) <> 200 ->
  run (OneCallAPI.get_weather s exclude)
  = (Raised (Instance TypeError
       (JStr (class_name
                (class_for_status
                   (status_code (http_get (OneCallAPI.get_weather_url s exclude))))
                ++ "() takes no arguments"))),
     [HttpGet (OneCallAPI.get_weather_url s exclude)]).
Proof.
  intros Hs. apply Z.eqb_neq in Hs.
  unfold run, OneCallAPI.get_weather, bind, requests_get, emit, ret. cbn.
  rewrite Hs. apply fail_with_TypeError.
Qed.

(** C1, at the status codes of the table.  A server that answers 401, 404,
    429 or 500 with a JSON error body makes [get_weather] raise a
    [TypeError] that says the class named by the table takes no arguments:
    neither [InvalidAPIKeyError], [NotFoundError], [TooManyRequestsError] nor
    [OpenWeatherMapException] comes out, and the server's message is lost.
    The same holds for the current-weather wrapper. *)
Theorem table_statuses_raise_TypeError :
  run (OneCallAPI.get_weather (H := replying (error_reply 401 "Invalid API key"))
         sample_onecall [])
  = (Raised (Instance TypeError (JStr "InvalidAPIKeyError() takes no arguments")),
     [HttpGet (OneCallAPI.url sample_onecall)])
  /\ run (OneCallAPI.get_weather (H := replying (error_reply 404 "city not found"))
            sample_onecall [])
     = (Raised (Instance TypeError (JStr "NotFoundError() takes no arguments")),
        [HttpGet (OneCallAPI.url sample_onecall)])
  /\ run (OneCallAPI.get_weather (H := replying (error_reply 429 "Too many requests"))
            sample_onecall [])
     = (Raised (Instance TypeError (JStr "TooManyRequestsError() takes no arguments")),
        [HttpGet (OneCallAPI.url sample_onecall)])
  /\ run (OneCallAPI.get_weather (H := replying (error_reply 500 "Internal error"))
            sample_onecall [])
     = (Raised (Instance TypeError (JStr "OpenWeatherMapException() takes no arguments")),
        [HttpGet (OneCallAPI.url sample_onecall)])
  /\ run (CurrentWeatherAPI.get_weather (H := replying (error_reply 401 "Invalid API key"))
            sample_current)
     = (Raised (Instance TypeError (JStr "InvalidAPIKeyError() takes no arguments")),
        [HttpGet (CurrentWeatherAPI.url sample_current)]).
Proof. repeat split; reflexivity. Qed.

(** C2, on the class table of [errors.py].  The four specific classes do
    derive from [OpenWeatherMapException], but none of the five derives from
    [BaseException]: Python refuses to raise them.  A 404 answer to the
    current-weather wrapper reaches the caller as a [TypeError], which is
    not an [OpenWeatherMapException]. *)
Theorem declared_error_classes_cannot_be_raised :
  (issubclass SubscriptionLevelError OpenWeatherMapException = true
   /\ issubclass InvalidAPIKeyError OpenWeatherMapException = true
   /\ issubclass NotFoundError OpenWeatherMapException = true
   /\ issubclass TooManyRequestsError OpenWeatherMapException = true)
  /\ (issubclass OpenWeatherMapException BaseException = false
      /\ issubclass SubscriptionLevelError BaseException = false
      /\ issubclass InvalidAPIKeyError BaseException = false
      /\ issubclass NotFoundError BaseException = false
      /\ issubclass TooManyRequestsError BaseException = false)
  /\ (exists e,
        invoke (H := replying (error_reply 404 "city not found"))
          (CurrentWeather_get_weather sample_current)
        = (Some e, [HttpGet (CurrentWeatherAPI.url sample_current)])
        /\ inst_class e = TypeError
        /\ issubclass (inst_class e) OpenWeatherMapException = false).
Proof.
  repeat split; try reflexivity.
  eexists. repeat split; reflexivity.
Qed.

(** C3, at a plain 400.  The answer selects the default branch of the
    [match], whose raise statement fails: the caller gets a [TypeError], not
    an [OpenWeatherMapException]. *)
Theorem plain_400_raises_TypeError :
  class_for_status 400 = OpenWeatherMapException
  /\ run (OneCallAPI.get_weather
            (H := replying (error_reply 400 "Requested data is not available in your plan"))
            sample_onecall [])
     = (Raised (Instance TypeError (JStr "OpenWeatherMapException() takes no arguments")),
        [HttpGet (OneCallAPI.url sample_onecall)]).
Proof. split; reflexivity. Qed.

(** C4, at a 404 with a JSON body and at a 502 with a plain body.  The
    [else] branch extracts the message as described, but the exception
    that comes out carries the text of the [TypeError], not that message. *)
Theorem extracted_message_is_not_attached :
  (error_message (error_reply 404 "city not found") []
   = (Returned (JStr "city not found"), [])
   /\ exists e log,
        run (OneCallAPI.get_weather (H := replying (error_reply 404 "city not found"))
               sample_onecall [])
        = (Raised e, log)
        /\ inst_arg e = JStr "NotFoundError() takes no arguments"
        /\ inst_arg e <> JStr "city not found")
  /\ (error_message (plain_reply 502 "Bad Gateway") []
      = (Returned (JStr "Bad Gateway"), [])
      /\ exists e log,
           run (OneCallAPI.get_weather (H := replying (plain_reply 502 "Bad Gateway"))
                  sample_onecall [])
           = (Raised e, log)
           /\ inst_arg e = JStr "OpenWeatherMapException() takes no arguments"
           /\ inst_arg e <> JStr "Bad Gateway").
Proof.
  split; (split; [reflexivity|]); do 2 eexists;
    (split; [reflexivity | split; [reflexivity | discriminate]]).
Qed.

(** ** What a method does after its request *)

Lemma settles_ret {A : Type} (a : A) : settles (ret a).
Proof. intros log. left. now exists a. Qed.

Lemma settles_fail_with {A : Type} (data : response) : settles (fail_with (A := A) data).
Proof.
  intros log. right. eexists. rewrite fail_with_TypeError. split; reflexivity.
Qed.

Lemma settles_response_json (data : response) : settles (response_json data).
Proof.
  intros log. unfold response_json. destruct (json_body data) as [j|].
  - left. now exists j.
  - right. eexists. split; reflexivity.
Qed.

Lemma settles_get (obj : json) (key : string) (default : json) :
  settles (get obj key default).
Proof.
  intros log. unfold get.
  destruct obj as [| | | | | |fields];
    try (right; eexists; split; reflexivity).
  destruct (lookup key fields) as [v|]; left; eexists; reflexivity.
Qed.

Lemma settles_bind {A B : Type} (m : M A) (k : A -> M B) :
  settles m -> (forall a, settles (k a)) -> settles (bind m k).
Proof.
  intros Hm Hk log. unfold bind.
  destruct (Hm log) as [[a ->] | [e [-> He]]].
  - apply Hk.
  - right. now exists e.
Qed.

Lemma settles_if {A : Type} (b : bool) (m1 m2 : M A) :
  settles m1 -> settles m2 -> settles (if b then m1 else m2).
Proof. now destruct b. Qed.

(** Decompose the handling of a response into the pieces above. *)
Ltac settle :=
  intros;
  repeat first
    [ apply settles_fail_with | apply settles_response_json | apply settles_get
    | apply settles_ret | apply settles_if | apply settles_bind; [| intro] ].

Section AfterRequest.
Context `{Collaborators}.

(** A GET followed by a handling that settles: one call in the log, and
    nothing but a remote failure can come out. *)
Lemma get_then_settles (url : string) (k : response -> M retval) :
  (forall data, settles (k data)) ->
  snd (run (data <- requests_get url ;; k data)) = [HttpGet url]
  /\ forall e log,
       run (data <- requests_get url ;; k data) = (Raised e, log) ->
       remote_class (inst_class e) = true.
Proof.
  intros Hk. unfold run, bind, requests_get, emit, ret. cbn.
  destruct (Hk (http_get url) [HttpGet url]) as [[a ->] | [e [-> He]]].
  - split; [reflexivity | discriminate].
  - split; [reflexivity|]. now intros e' log [= <- _].
Qed.

Lemma post_then_settles (url : string) (payload : json)
    (headers : list (string * string)) (k : response -> M retval) :
  (forall data, settles (k data)) ->
  snd (run (data <- requests_post url payload headers ;; k data))
  = [HttpPost url payload]
  /\ forall e log,
       run (data <- requests_post url payload headers ;; k data) = (Raised e, log) ->
       remote_class (inst_class e) = true.
Proof.
  intros Hk. unfold run, bind, requests_post, emit, ret. cbn.
  destruct (Hk (http_post url payload headers) [HttpPost url payload])
    as [[a ->] | [e [-> He]]].
  - split; [reflexivity | discriminate].
  - split; [reflexivity|]. now intros e' log [= <- _].
Qed.
End AfterRequest.

(** ** Local validation of the arguments *)

Section Validation.
Context `{Collaborators}.


(** C8.  Both geocoding lookups refuse a limit outside [1, 5], 0 and 6
    included, with the [ValueError] of the method (the spec's
    InvalidParameter) and no call made.  A limit inside the bounds, 1 and
    5 included, passes: [get_by_city] makes its request, and
    [get_by_coordinates] goes on to check the coordinates and makes its
    request when they are in range; the only [ValueError] left is the one
    about the coordinates. *)
Theorem geocoding_limit_bounds (s : GeocodingAPI.self) (city country : string)
    (state_code : option string) (latitude longitude : number) (limit : Z) :
  (limit < 1 \/ 5 < limit ->
     run (GeocodingAPI.get_by_city s city country state_code limit)
     = (Raised (Instance ValueError (JStr "Limit must be between 1 and 5.")), [])
     /\ run (GeocodingAPI.get_by_coordinates s latitude longitude limit)
        = (Raised (Instance ValueError (JStr "Limit must be between 1 and 5.")), []))
  /\ (1 <= limit <= 5 ->
        (snd (run (GeocodingAPI.get_by_city s city country state_code limit))
         = [HttpGet (GeocodingAPI.get_by_city_url s city country state_code limit)]
         /\ forall e log,
              run (GeocodingAPI.get_by_city s city country state_code limit)
              = (Raised e, log) ->
              inst_class e <> ValueError)
        /\ (between (-90) latitude 90 && between (-180) longitude 180 = true ->
              snd (run (GeocodingAPI.get_by_coordinates s latitude longitude limit))
              = [HttpGet (GeocodingAPI.get_by_coordinates_url s latitude longitude limit)])
        /\ forall e log,
             run (GeocodingAPI.get_by_coordinates s latitude longitude limit)
             = (Raised e, log) ->
             inst_class e = ValueError ->
             between (-90) latitude 90 && between (-180) longitude 180 = false
             /\ inst_arg e <> JStr "Limit must be between 1 and 5.").
Proof.
  unfold GeocodingAPI.get_by_city, GeocodingAPI.get_by_coordinates.
  split; intros Hl.
  - assert (E : (limit >? 5) || (limit <? 1) = true).
    { apply orb_true_iff. destruct Hl; [right; now apply Z.ltb_lt | left].
      apply Z.gtb_lt. assumption. }
    rewrite E. split; reflexivity.
  - assert (E : (limit >? 5) || (limit <? 1) = false).
    { apply orb_false_iff. split; [|apply Z.ltb_ge; lia].
      rewrite Z.gtb_ltb. apply Z.ltb_ge. lia. }
    rewrite E.
    destruct (get_then_settles
                (GeocodingAPI.get_by_city_url s city country state_code limit)
                (fun data =>
                   if status_code data =? 200
                   then j <- response_json data ;; ret (GeocodingResponse j)
                   else fail_with data)) as [Hlog Hexn];
      [intros data; settle|].
    destruct (get_then_settles
                (GeocodingAPI.get_by_coordinates_url s latitude longitude limit)
                (fun data =>
                   if status_code data =? 200
                   then j <- response_json data ;; ret (GeocodingResponse j)
                   else fail_with data)) as [Hlog' Hexn'];
      [intros data; settle|].
    split; [split | split].
    + exact Hlog.
    + intros e log Hrun Hc. apply Hexn in Hrun. now rewrite Hc in Hrun.
    + intros Hin. rewrite Hin. exact Hlog'.
    + intros e log.
      destruct (between (-90) latitude 90 && between (-180) longitude 180); cbn [negb].
      * intros Hrun Hc. apply Hexn' in Hrun. rewrite Hc in Hrun. discriminate.
      * intros [= <- _] _. split; [reflexivity | discriminate].
Qed.
End Validation.

(** ** Network calls made before a local failure *)

Lemma observe_raised {A : Type} (m : M A) (e : instance) (log : list event) :
  observe m = (Some e, log) -> run m = (Raised e, log).
Proof.
  unfold observe. destruct (run m) as [[a | e'] log']; intros [= ? ?]; now subst.
Qed.

(** A continuation that makes no call leaves the log of what precedes it. *)
Lemma bind_quiet {A B : Type} (m : M A) (k : A -> M B) (log : list event) :
  (forall a l, snd (k a l) = l) -> snd (bind m k log) = snd (m log).
Proof.
  intros Hk. unfold bind. destruct (m log) as [[a | e] log']; [apply Hk | reflexivity].
Qed.

Section LocalFailures.
Context `{Collaborators}.

(** No [ValueError] comes out of a method once its request is made. *)
Ltac after_request Hrun Hc :=
  exfalso;
  lazymatch type of Hrun with
  | run (bind (requests_get ?u) ?k) = _ =>
      destruct (get_then_settles u k) as [_ Hremote]; [settle|];
      apply Hremote in Hrun; rewrite Hc in Hrun; discriminate
  | run (bind (requests_post ?u ?p ?h) ?k) = _ =>
      destruct (post_then_settles u p h k) as [_ Hremote]; [settle|];
      apply Hremote in Hrun; rewrite Hc in Hrun; discriminate
  end.

(** The base constructor calls the geocoder once for a place name and
    makes no call for a tuple. *)
Lemma base_init_log (api_key : string) (location : location_arg)
    (language units : string) :
  snd (run (OpenWeatherMapAPI.__init__ api_key location language units))
  = match location with
    | Name place => [Geocode place]
    | Tuple _ => []
    end.
Proof.
  unfold run, OpenWeatherMapAPI.__init__.
  destruct location as [place | items].
  - unfold bind, emit. cbn. destruct (geocode place) as [[lat lon]|]; reflexivity.
  - destruct items as [|[|lat|] [|[|lon|] [|]]]; try reflexivity.
    destruct (negb _); reflexivity.
Qed.

(** A constructor or a method that raises [ValueError] has made no request
    to the weather service: the log holds the one geocoder lookup of a
    constructor called with a place name, and nothing otherwise. *)
Theorem local_failure_precedes_requests (i : invocation) (e : instance)
    (log : list event) :
  invoke i = (Some e, log) ->
  inst_class e = ValueError ->
  existsb is_http log = false
  /\ log = match place_name i with
           | Some place => [Geocode place]
           | None => []
           end.
Proof.
  intros Hobs Hc.
  assert (Hlog : log = match place_name i with
                       | Some place => [Geocode place]
                       | None => []
                       end).
  { destruct i; cbn [invoke place_name] in *; apply observe_raised in Hobs.
    1-6: apply (f_equal snd) in Hobs; cbn [snd] in Hobs; rewrite <- Hobs;
         unfold run.
    - unfold OneCallAPI.__init__. rewrite bind_quiet by reflexivity.
      etransitivity; [apply base_init_log | now destruct location].
    - unfold CurrentWeatherAPI.__init__.
      rewrite bind_quiet by (intros; destruct (negb _); reflexivity).
      etransitivity; [apply base_init_log | now destruct location].
    - unfold FiveDayForecast.__init__.
      rewrite bind_quiet by (intros; destruct (negb _); reflexivity).
      etransitivity; [apply base_init_log | now destruct location].
    - unfold AirPollutionAPI.__init__. rewrite bind_quiet by reflexivity.
      etransitivity; [apply base_init_log | now destruct location].
    - reflexivity.
    - unfold WeatherStationAPI.__init__. destruct (negb _); reflexivity.
    - unfold OneCallAPI.get_weather in Hobs. after_request Hobs Hc.
    - unfold OneCallAPI.get_timed_weather in Hobs.
      destruct (timestamp <? 283996800); [now inversion Hobs|].
      after_request Hobs Hc.
    - unfold OneCallAPI.get_aggregation in Hobs. after_request Hobs Hc.
    - unfold OneCallAPI.get_overview in Hobs. after_request Hobs Hc.
    - unfold CurrentWeatherAPI.get_weather in Hobs. after_request Hobs Hc.
    - unfold FiveDayForecast.get_forecast in Hobs. after_request Hobs Hc.
    - unfold AirPollutionAPI.get_current_air_pollution in Hobs.
      after_request Hobs Hc.
    - unfold AirPollutionAPI.get_air_pollution_forecast in Hobs.
      after_request Hobs Hc.
    - unfold AirPollutionAPI.get_air_pollution_history in Hobs.
      after_request Hobs Hc.
    - unfold GeocodingAPI.get_by_city in Hobs.
      destruct ((limit >? 5) || (limit <? 1)); [now inversion Hobs|].
      after_request Hobs Hc.
    - unfold GeocodingAPI.get_by_zip in Hobs. after_request Hobs Hc.
    - unfold GeocodingAPI.get_by_coordinates in Hobs.
      destruct ((limit >? 5) || (limit <? 1)); [now inversion Hobs|].
      destruct (negb _); [now inversion Hobs|].
      after_request Hobs Hc.
    - unfold WeatherStationAPI.register_station in Hobs. after_request Hobs Hc. }
  split; [|exact Hlog].
  rewrite Hlog. now destruct (place_name i).
Qed.
End LocalFailures.

(** C5, as stated, at a constructor called with a place name and a mode that
    the wrapper does not support: the mode is checked after the base
    constructor has asked the geocoder, so one network call precedes the
    [ValueError]. *)
Lemma mode_failure_follows_geocoder_lookup :
  exists e log,
    invoke (H := replying (error_reply 200 "unused"))
      (New_CurrentWeatherAPI "key" (Name "London") "en" "metric" "yaml")
    = (Some e, log)
    /\ e = Instance ValueError (JStr "Mode must be either 'xml' or 'html' or 'json.")
    /\ log = [Geocode "London"]
    /\ log <> [].
Proof.
  do 2 eexists. split; [reflexivity|]. repeat split. discriminate.
Qed.

Lemma local_failure_precedes_requests_witness :
  invoke (H := replying (error_reply 200 "unused"))
    (New_FiveDayForecast "key" (Name "London") 3 "en" "metric" "html")
  = (Some (Instance ValueError (JStr "Mode must be either 'xml' or 'json'.")),
     [Geocode "London"])
  /\ inst_class (Instance ValueError (JStr "Mode must be either 'xml' or 'json'."))
     = ValueError
  /\ existsb is_http [Geocode "London"] = false
  /\ [Geocode "London"] = [Geocode "London"].
Proof.
  split; [reflexivity|]. split; [reflexivity|].
  exact (local_failure_precedes_requests
           (H := replying (error_reply 200 "unused"))
           (New_FiveDayForecast "key" (Name "London") 3 "en" "metric" "html")
           (Instance ValueError (JStr "Mode must be either 'xml' or 'json'."))
           [Geocode "London"] eq_refl eq_refl).
Defined.


Lemma geocoding_limit_bounds_witness :
  ((0 < 1 \/ 5 < 0)
   /\ run (GeocodingAPI.get_by_city (H := replying (error_reply 200 "ok"))
             sample_geocoding "London" "GB" None 0)
      = (Raised (Instance ValueError (JStr "Limit must be between 1 and 5.")), []))
  /\ ((6 < 1 \/ 5 < 6)
      /\ run (GeocodingAPI.get_by_coordinates (H := replying (error_reply 200 "ok"))
                sample_geocoding (NInt 51) (NInt 0) 6)
         = (Raised (Instance ValueError (JStr "Limit must be between 1 and 5.")), []))
  /\ (1 <= 1 <= 5
      /\ snd (run (GeocodingAPI.get_by_city (H := replying (error_reply 200 "ok"))
                     sample_geocoding "London" "GB" None 1))
         = [HttpGet "https://api.openweathermap.org/geo/1.0/direct?&appid=key&q=London,GB&limit=1"])
  /\ (1 <= 5 <= 5
      /\ snd (run (GeocodingAPI.get_by_coordinates (H := replying (error_reply 200 "ok"))
                     sample_geocoding (NInt 51) (NInt 0) 5))
         = [HttpGet "https://api.openweathermap.org/geo/1.0/reverse?&appid=key&lat=51&lon=0&limit=5"]).
Proof.
  split; [split; [left; lia|] | split; [split; [right; lia|] | split; (split; [lia|])]].
  - apply (proj1 (geocoding_limit_bounds (H := replying (error_reply 200 "ok"))
                    sample_geocoding "London" "GB" None (NInt 51) (NInt 0) 0)).
    left; lia.
  - apply (proj1 (geocoding_limit_bounds (H := replying (error_reply 200 "ok"))
                    sample_geocoding "London" "GB" None (NInt 51) (NInt 0) 6)).
    right; lia.
  - apply (proj2 (geocoding_limit_bounds (H := replying (error_reply 200 "ok"))
                    sample_geocoding "London" "GB" None (NInt 51) (NInt 0) 1)).
    lia.
  - apply (proj2 (geocoding_limit_bounds (H := replying (error_reply 200 "ok"))
                    sample_geocoding "London" "GB" None (NInt 51) (NInt 0) 5));
      [lia | reflexivity].
Defined.

(** ** The URL of the overview *)

Section Overview.
Context `{Collaborators}.

(** What the constructor hands back, when it does. *)
Lemma onecall_init_returned (api_key : string) (location : location_arg)
    (language units : string) (s : OneCallAPI.self) (log : list event) :
  run (OneCallAPI.__init__ api_key location language units) = (Returned s, log) ->
  exists lat lon,
    s = OneCallAPI.Self
          (OpenWeatherMapAPI.Self api_key (lat, lon) language units)
          ("https://api.openweathermap.org/data/3.0/onecall?lat="
             ++ format_number lat ++ "&lon=" ++ format_number lon
             ++ "&appid=" ++ api_key ++ "&lang=" ++ language
             ++ "&units=" ++ units).
Proof.
  unfold run, OneCallAPI.__init__. intros Hrun.
  apply bind_returned in Hrun as (base & log1 & Hbase & Hret).
  injection Hret as <- _.
  unfold OpenWeatherMapAPI.__init__ in Hbase.
  destruct location as [place | items].
  - unfold bind, emit in Hbase. cbn in Hbase.
    destruct (geocode place) as [[lat lon]|]; [|discriminate].
    injection Hbase as <- _. now exists (NFloat lat), (NFloat lon).
  - destruct items as [|[|lat|] [|[|lon|] [|]]]; try discriminate.
    destruct (negb _); [discriminate|].
    injection Hbase as <- _. now exists lat, lon.
Qed.

(** A coordinate is written with digits, a sign and what the float
    rendering uses. *)
Lemma format_number_chars (c : ascii) (n : number) :
  has_char c "-0123456789" = false ->
  (forall f, has_char c (float_str f) = false) ->
  has_char c (format_number n) = false.
Proof.
  intros Hd Hf. destruct n as [z | f]; [now apply str_int_chars | apply Hf].
Qed.

(** C7, for parameters that hold no separator of their own.  When the
    rendering of floats, the key and the units contain neither [&] nor
    [?], and the language contains no [?], the URL that [get_overview]
    asks for is the one-call URL with [onecall/overview] as its path and
    without the [lang] parameter; [lat], [lon], [appid] and [units] are
    as the constructor wrote them. *)
Theorem overview_url_drops_language (api_key : string) (location : location_arg)
    (language units : string) (s : OneCallAPI.self) (log : list event) :
  (forall f, has_char "&" (float_str f) = false) ->
  (forall f, has_char "?" (float_str f) = false) ->
  has_char "&" api_key = false -> has_char "?" api_key = false ->
  has_char "?" language = false ->
  has_char "&" units = false -> has_char "?" units = false ->
  run (OneCallAPI.__init__ api_key location language units) = (Returned s, log) ->
  OneCallAPI.get_overview_url s = overview_url_without_language s
  /\ snd (run (OneCallAPI.get_overview s)) = [HttpGet (overview_url_without_language s)]
  /\ OpenWeatherMapAPI.api_key (OneCallAPI.super s) = api_key
  /\ OpenWeatherMapAPI.units (OneCallAPI.super s) = units.
Proof.
  intros Hf1 Hf2 Hk1 Hk2 Hl2 Hu1 Hu2 Hrun.
  apply onecall_init_returned in Hrun as (lat & lon & ->).
  assert (Hurl : OneCallAPI.get_overview_url
                   (OneCallAPI.Self
                      (OpenWeatherMapAPI.Self api_key (lat, lon) language units)
                      ("https://api.openweathermap.org/data/3.0/onecall?lat="
                         ++ format_number lat ++ "&lon=" ++ format_number lon
                         ++ "&appid=" ++ api_key ++ "&lang=" ++ language
                         ++ "&units=" ++ units))
                 = overview_url_without_language
                     (OneCallAPI.Self
                        (OpenWeatherMapAPI.Self api_key (lat, lon) language units)
                        ("https://api.openweathermap.org/data/3.0/onecall?lat="
                           ++ format_number lat ++ "&lon=" ++ format_number lon
                           ++ "&appid=" ++ api_key ++ "&lang=" ++ language
                           ++ "&units=" ++ units))).
  { unfold OneCallAPI.get_overview_url, overview_url_without_language.
    cbn [OneCallAPI.url OneCallAPI.super OpenWeatherMapAPI.language
         OpenWeatherMapAPI.location OpenWeatherMapAPI.api_key
         OpenWeatherMapAPI.units fst snd].
    apply overview_replace; trivial;
      apply format_number_chars; trivial. }
  split; [exact Hurl|]. split; [|split; reflexivity].
  unfold OneCallAPI.get_overview. rewrite Hurl.
  apply get_then_settles. settle.
Qed.
End Overview.

(** C7, as stated, at a key that holds the text of the language parameter:
    [str.replace] removes every occurrence, so the tail of the key goes with
    the parameter and [appid] is not the key any more. *)
Lemma overview_url_mangles_key :
  exists s log,
    run (OneCallAPI.__init__ (H := replying (error_reply 200 "ok"))
           "k&lang=en" london "en" "metric")
    = (Returned s, log)
    /\ OpenWeatherMapAPI.api_key (OneCallAPI.super s) = "k&lang=en"
    /\ OneCallAPI.get_overview_url s
       = "https://api.openweathermap.org/data/3.0/onecall/overview?lat=51.5&lon=-0.12&appid=k&units=metric"
    /\ overview_url_without_language (H := replying (error_reply 200 "ok")) s
       = "https://api.openweathermap.org/data/3.0/onecall/overview?lat=51.5&lon=-0.12&appid=k&lang=en&units=metric"
    /\ OneCallAPI.get_overview_url s
       <> overview_url_without_language (H := replying (error_reply 200 "ok")) s.
Proof.
  do 2 eexists. split; [reflexivity|]. repeat split. discriminate.
Qed.

Lemma sample_float_str_chars (c : ascii) (f : pyfloat) :
  has_char c "-.0123456789abcdefghijklmnopqrstuvwxyz" = false ->
  has_char c (sample_float_str f) = false.
Proof.
  intros Hc. cbn [has_char] in Hc.
  repeat (apply orb_false_iff in Hc as [? Hc]).
  destruct f as [q | [|] |]; unfold sample_float_str;
    repeat match goal with |- context [Qeq_bool ?a ?b] => destruct (Qeq_bool a b) end;
    cbn [has_char];
    repeat match goal with E : Ascii.eqb _ c = false |- _ => rewrite E; clear E end;
    reflexivity.
Qed.

Lemma overview_url_drops_language_witness :
  run (OneCallAPI.__init__ (H := replying (error_reply 200 "ok"))
         "key" london "en" "metric")
  = (Returned sample_onecall, [])
  /\ OneCallAPI.get_overview_url sample_onecall
     = "https://api.openweathermap.org/data/3.0/onecall/overview?lat=51.5&lon=-0.12&appid=key&units=metric".
Proof.
  split; [reflexivity|].
  apply (overview_url_drops_language (H := replying (error_reply 200 "ok"))
           "key" london "en" "metric" sample_onecall []);
    try reflexivity;
    intros f; apply sample_float_str_chars; reflexivity.
Defined.

(** ** Optional fields of the URL *)

Section OptionalFields.
Context `{Collaborators}.

(** What the forecast constructor hands back, when it does. *)
Lemma forecast_init_returned (api_key : string) (location : location_arg)
    (count : Z) (language units mode : string) (s : FiveDayForecast.self)
    (log : list event) :
  run (FiveDayForecast.__init__ api_key location count language units mode)
  = (Returned s, log) ->
  FiveDayForecast.count s = count
  /\ FiveDayForecast.mode s = mode
  /\ FiveDayForecast.url s
     = if count >? 0
       then FiveDayForecast.base_url (FiveDayForecast.super s) mode
              ++ "&cnt=" ++ str_int count
       else FiveDayForecast.base_url (FiveDayForecast.super s) mode.
Proof.
  unfold run, FiveDayForecast.__init__. intros Hrun.
  apply bind_returned in Hrun as (base & log1 & _ & Hret).
  destruct (negb _); [discriminate|].
  injection Hret as <- _. cbn. now destruct (count >? 0).
Qed.

(** No match starts in a stretch that lacks the first character of the
    pattern. *)
Lemma contains_pass (x : ascii) (p a b : string) :
  has_char x a = false ->
  contains (String x p) (a ++ b) = contains (String x p) b.
Proof.
  induction a as [|y a IH]; intros Hx; [reflexivity|].
  simpl in Hx. apply orb_false_iff in Hx as [Hyx Ha].
  change (String y a ++ b) with (String y (a ++ b)).
  cbn [contains startswith]. rewrite Ascii.eqb_sym, Hyx. cbn [andb orb].
  exact (IH Ha).
Qed.

(** The template of the forecast URL holds no [cnt] parameter of its own
    when the interpolated parts hold no separator. *)
Lemma forecast_base_url_without_cnt (base : OpenWeatherMapAPI.self) (mode : string) :
  (forall f, has_char "&" (float_str f) = false) ->
  has_char "&" (OpenWeatherMapAPI.api_key base) = false ->
  has_char "&" (OpenWeatherMapAPI.language base) = false ->
  has_char "&" (OpenWeatherMapAPI.units base) = false ->
  has_char "&" mode = false ->
  contains "&cnt=" (FiveDayForecast.base_url base mode) = false.
Proof.
  intros Hf Hk Hl Hu Hm. unfold FiveDayForecast.base_url.
  destruct base as [key [lat lon] lang units]. cbn [OpenWeatherMapAPI.location
    OpenWeatherMapAPI.api_key OpenWeatherMapAPI.language OpenWeatherMapAPI.units
    fst snd] in *.
  assert (Hlat : has_char "&" (format_number lat) = false)
    by (apply format_number_chars; trivial).
  assert (Hlon : has_char "&" (format_number lon) = false)
    by (apply format_number_chars; trivial).
  rewrite contains_pass by reflexivity.
  rewrite contains_pass by assumption.
  change (contains "&cnt=" ("&lon=" ++ ?x)) with (contains "&cnt=" x).
  rewrite contains_pass by assumption.
  change (contains "&cnt=" ("&appid=" ++ ?x)) with (contains "&cnt=" x).
  rewrite contains_pass by assumption.
  change (contains "&cnt=" ("&lang=" ++ ?x)) with (contains "&cnt=" x).
  rewrite contains_pass by assumption.
  change (contains "&cnt=" ("&units=" ++ ?x)) with (contains "&cnt=" x).
  rewrite contains_pass by assumption.
  change (contains "&cnt=" ("&mode=" ++ mode)) with (contains "&cnt=" mode).
  rewrite <- (append_empty_r mode).
  rewrite contains_pass by assumption. reflexivity.
Qed.

(** The count and the URL: a forecast client built with a count of zero or
    less has the URL of the template, to which the count adds nothing; a
    client built with a positive count has that URL followed by the
    fragment [&cnt=count].  [get_forecast] asks for that URL. *)
Theorem forecast_count_fragment (api_key : string) (location : location_arg)
    (count : Z) (language units mode : string) (s : FiveDayForecast.self)
    (log : list event) :
  run (FiveDayForecast.__init__ api_key location count language units mode)
  = (Returned s, log) ->
  (count <= 0 ->
     FiveDayForecast.url s = FiveDayForecast.base_url (FiveDayForecast.super s) mode)
  /\ (0 < count ->
        FiveDayForecast.url s
        = FiveDayForecast.base_url (FiveDayForecast.super s) mode
            ++ "&cnt=" ++ str_int count)
  /\ snd (run (FiveDayForecast.get_forecast s)) = [HttpGet (FiveDayForecast.url s)].
Proof.
  intros Hrun. apply forecast_init_returned in Hrun as (_ & _ & Hurl).
  split; [|split].
  - intros Hc. rewrite Hurl.
    destruct (count >? 0) eqn:E; [apply Z.gtb_lt in E; lia | reflexivity].
  - intros Hc. rewrite Hurl.
    destruct (count >? 0) eqn:E; [reflexivity|].
    rewrite Z.gtb_ltb in E. apply Z.ltb_ge in E. lia.
  - unfold FiveDayForecast.get_forecast. apply get_then_settles. settle.
Qed.

End OptionalFields.




(** * Further properties of the wrappers *)

(** ** Every method: one request, then the classification of the answer *)

Lemma snd_observe {A : Type} (m : M A) : snd (observe m) = snd (run m).
Proof. unfold observe. now destruct (run m) as [[a | e] log]. Qed.

Lemma some_inj {A : Type} (a b : A) : Some a = Some b -> a = b.
Proof. now intros [= ->]. Qed.

Section Anatomy.
Context `{Collaborators}.

(** Unfold a method down to the test of the status code. *)
Ltac open_method :=
  unfold invoke, observe, run,
    OneCallAPI.get_weather, OneCallAPI.get_timed_weather, OneCallAPI.get_aggregation,
    OneCallAPI.get_overview, CurrentWeatherAPI.get_weather, FiveDayForecast.get_forecast,
    AirPollutionAPI.get_current_air_pollution, AirPollutionAPI.get_air_pollution_forecast,
    AirPollutionAPI.get_air_pollution_history, GeocodingAPI.get_by_city,
    GeocodingAPI.get_by_zip, GeocodingAPI.get_by_coordinates,
    WeatherStationAPI.register_station;
  cbn [passes_validation request reply success_status is_method] in *.

(** A method whose guard refuses the arguments raises [ValueError] and makes
    no call. *)
Lemma method_refused (i : invocation) :
  is_method i = true -> passes_validation i = false ->
  exists message, invoke i = (Some (Instance ValueError (JStr message)), []).
Proof.
  intros Hm Hv. destruct i; try discriminate; open_method; try discriminate.
  - apply negb_false_iff in Hv. rewrite Hv. eexists; reflexivity.
  - apply negb_false_iff in Hv. rewrite Hv. eexists; reflexivity.
  - destruct ((limit >? 5) || (limit <? 1)); [eexists; reflexivity|].
    cbn [negb andb] in Hv. rewrite Hv. eexists; reflexivity.
Qed.

(** A method whose guard lets the arguments through sends its request, and
    nothing else. *)
Lemma method_log (i : invocation) :
  is_method i = true -> passes_validation i = true ->
  exists ev, request i = Some ev /\ snd (invoke i) = [ev].
Proof.
  intros Hm Hv. destruct i; try discriminate;
    cbn [invoke request passes_validation] in *; rewrite snd_observe;
    (eexists; split; [reflexivity|]).
  - apply get_then_settles. settle.
  - unfold OneCallAPI.get_timed_weather.
    apply negb_true_iff in Hv. rewrite Hv. apply get_then_settles. settle.
  - apply get_then_settles. settle.
  - apply get_then_settles. settle.
  - apply get_then_settles. settle.
  - apply get_then_settles. settle.
  - apply get_then_settles. settle.
  - apply get_then_settles. settle.
  - apply get_then_settles. settle.
  - unfold GeocodingAPI.get_by_city.
    apply negb_true_iff in Hv. rewrite Hv. apply get_then_settles. settle.
  - apply get_then_settles. settle.
  - unfold GeocodingAPI.get_by_coordinates.
    apply andb_true_iff in Hv as [Hl Hc]. apply negb_true_iff in Hl.
    rewrite Hl, Hc. apply get_then_settles. settle.
  - apply post_then_settles. settle.
Qed.

(** A GET followed by the test of the status code: the success branch runs
    on the answer when the status is the expected one, and the raise of the
    status table fails otherwise. *)
Lemma get_classified (url : string) (expected : Z) (success : response -> M retval) :
  run (data <- requests_get url ;;
       if status_code data =? expected then success data else fail_with data)
  = if status_code (http_get url) =? expected
    then success (http_get url) [HttpGet url]
    else (Raised (Instance TypeError
            (JStr (class_name (class_for_status (status_code (http_get url)))
                     ++ "() takes no arguments"))),
          [HttpGet url]).
Proof.
  unfold run, bind, requests_get, emit, ret. cbn.
  destruct (status_code (http_get url) =? expected).
  - now destruct (success (http_get url) [HttpGet url]) as [[a | e] log].
  - now rewrite fail_with_TypeError.
Qed.

Lemma post_classified (url : string) (payload : json)
    (headers : list (string * string)) (expected : Z)
    (success : response -> M retval) :
  run (data <- requests_post url payload headers ;;
       if status_code data =? expected then success data else fail_with data)
  = if status_code (http_post url payload headers) =? expected
    then success (http_post url payload headers) [HttpPost url payload]
    else (Raised (Instance TypeError
            (JStr (class_name
                     (class_for_status (status_code (http_post url payload headers)))
                     ++ "() takes no arguments"))),
          [HttpPost url payload]).
Proof.
  unfold run, bind, requests_post, emit, ret. cbn.
  destruct (status_code (http_post url payload headers) =? expected).
  - now destruct (success (http_post url payload headers) [HttpPost url payload])
      as [[a | e] log].
  - now rewrite fail_with_TypeError.
Qed.

(** X1.  Whatever the method, an answer whose status is not the one the
    method takes for a success (200, or 201 for [register_station]) never
    yields a value: after the one request, the raise of the status table
    fails with a [TypeError] that names the class the table picked. *)
Theorem non_success_answer_never_returns (i : invocation) (r : response) :
  is_method i = true ->
  passes_validation i = true ->
  reply i = Some r ->
  status_code r <> success_status i ->
  exists ev,
    request i = Some ev
    /\ invoke i
       = (Some (Instance TypeError
            (JStr (class_name (class_for_status (status_code r))
                     ++ "() takes no arguments"))),
          [ev]).
Proof.
  intros Hm Hv Hr Hs. apply Z.eqb_neq in Hs.
  destruct i; try discriminate;
    cbv beta iota delta [invoke request reply passes_validation success_status] in *;
    apply some_inj in Hr; subst r; (eexists; split; [reflexivity|]); unfold observe.
  - unfold OneCallAPI.get_weather. rewrite get_classified, Hs. reflexivity.
  - unfold OneCallAPI.get_timed_weather.
    apply negb_true_iff in Hv. rewrite Hv.
    rewrite get_classified, Hs. reflexivity.
  - unfold OneCallAPI.get_aggregation. rewrite get_classified, Hs. reflexivity.
  - unfold OneCallAPI.get_overview. rewrite get_classified, Hs. reflexivity.
  - unfold CurrentWeatherAPI.get_weather. rewrite get_classified, Hs. reflexivity.
  - unfold FiveDayForecast.get_forecast. rewrite get_classified, Hs. reflexivity.
  - unfold AirPollutionAPI.get_current_air_pollution.
    rewrite get_classified, Hs. reflexivity.
  - unfold AirPollutionAPI.get_air_pollution_forecast.
    rewrite get_classified, Hs. reflexivity.
  - unfold AirPollutionAPI.get_air_pollution_history.
    rewrite get_classified, Hs. reflexivity.
  - unfold GeocodingAPI.get_by_city.
    apply negb_true_iff in Hv. rewrite Hv.
    rewrite get_classified, Hs. reflexivity.
  - unfold GeocodingAPI.get_by_zip. rewrite get_classified, Hs. reflexivity.
  - unfold GeocodingAPI.get_by_coordinates.
    apply andb_true_iff in Hv as [Hl Hc]. apply negb_true_iff in Hl.
    rewrite Hl, Hc. cbn [negb].
    rewrite get_classified, Hs. reflexivity.
  - unfold WeatherStationAPI.register_station.
    rewrite post_classified, Hs. reflexivity.
Qed.
End Anatomy.

(** ** Constructors *)

Lemma between_in_range (lo : Z) (n : number) (hi : Z) :
  between lo n hi = true <-> in_range lo n hi.
Proof.
  unfold between, in_range. destruct n as [z | [q | [|] |]]; cbn.
  - rewrite andb_true_iff, !Z.leb_le. reflexivity.
  - rewrite andb_true_iff, !Qle_bool_iff. reflexivity.
  - split; [discriminate | contradiction].
  - split; [discriminate | contradiction].
  - split; [discriminate | contradiction].
Qed.

Section Constructors.
Context `{Collaborators}.

(** X2.  Given a tuple, the base constructor hands back a client exactly
    when the tuple is a pair of numbers with the latitude in [-90, 90] and the
    longitude in [-180, 180], bounds included; the client then holds the pair
    and the other arguments unchanged.  Accepted or refused with a
    [ValueError], a tuple never causes a network call. *)
Theorem coordinate_pair_kept_iff_in_range (api_key : string) (items : list pyval)
    (language units : string) :
  (forall s log,
     run (OpenWeatherMapAPI.__init__ api_key (Tuple items) language units)
     = (Returned s, log)
     <-> exists lat lon,
           items = [VNum lat; VNum lon]
           /\ in_range (-90) lat 90 /\ in_range (-180) lon 180
           /\ s = OpenWeatherMapAPI.Self api_key (lat, lon) language units
           /\ log = [])
  /\ (forall e log,
        run (OpenWeatherMapAPI.__init__ api_key (Tuple items) language units)
        = (Raised e, log) ->
        inst_class e = ValueError /\ log = []).
Proof.
  unfold run, OpenWeatherMapAPI.__init__. split.
  - intros s log. split.
    + destruct items as [|[|lat|] [|[|lon|] [|]]]; try discriminate.
      destruct (between (-90) lat 90 && between (-180) lon 180) eqn:E;
        cbn [negb]; [|discriminate].
      intros [= <- <-]. apply andb_true_iff in E as [E1 E2].
      exists lat, lon. repeat split; now apply between_in_range.
    + intros (lat & lon & -> & H1 & H2 & -> & ->).
      apply between_in_range in H1, H2. now rewrite H1, H2.
  - intros e log.
    destruct items as [|[|lat|] [|[|lon|] [|]]];
      try (intros [= <- <-]; now split).
    destruct (negb _); [intros [= <- <-]; now split | discriminate].
Qed.

(** X3.  A coordinate that is a nan or an infinity is always refused,
    whether it stands for the latitude or for the longitude. *)
Theorem non_finite_coordinate_refused (api_key language units : string)
    (f : pyfloat) (other : number) :
  (forall q, f <> FFin q) ->
  run (OpenWeatherMapAPI.__init__ api_key
         (Tuple [VNum (NFloat f); VNum other]) language units)
  = (Raised (Instance ValueError
       (JStr "Latitude must be between -90 and 90, and longitude must be between -180 and 180.")),
     [])
  /\ run (OpenWeatherMapAPI.__init__ api_key
            (Tuple [VNum other; VNum (NFloat f)]) language units)
     = (Raised (Instance ValueError
          (JStr "Latitude must be between -90 and 90, and longitude must be between -180 and 180.")),
        []).
Proof.
  intros Hf. unfold run, OpenWeatherMapAPI.__init__.
  assert (Hlat : between (-90) (NFloat f) 90 = false).
  { destruct f as [q | [|] |]; try reflexivity. now destruct (Hf q). }
  assert (Hlon : between (-180) (NFloat f) 180 = false).
  { destruct f as [q | [|] |]; try reflexivity. now destruct (Hf q). }
  rewrite Hlat, Hlon, andb_false_r. split; reflexivity.
Qed.

(** X4.  Given a place name, a constructor asks the geocoder once and makes
    no other call.  It fails with a [ValueError] exactly when the geocoder
    finds nothing; otherwise the client holds the coordinates of the
    geocoder as they are, without the range check that a tuple gets. *)
Theorem place_name_is_looked_up_once (api_key place language units : string) :
  snd (run (OneCallAPI.__init__ api_key (Name place) language units))
  = [Geocode place]
  /\ (geocode place = None ->
        fst (run (OneCallAPI.__init__ api_key (Name place) language units))
        = Raised (Instance ValueError
            (JStr "Location not found. Please provide a valid location.")))
  /\ (forall latitude longitude,
        geocode place = Some (latitude, longitude) ->
        exists s,
          fst (run (OneCallAPI.__init__ api_key (Name place) language units))
          = Returned s
          /\ OpenWeatherMapAPI.location (OneCallAPI.super s)
             = (NFloat latitude, NFloat longitude)).
Proof.
  unfold run, OneCallAPI.__init__, OpenWeatherMapAPI.__init__, bind, emit, ret.
  cbn. destruct (geocode place) as [[la lo]|]; cbn.
  - split; [reflexivity|]. split; [discriminate|].
    intros latitude longitude [= <- <-]. eexists. split; reflexivity.
  - split; [reflexivity|]. split; [reflexivity | discriminate].
Qed.

(** Membership in a list of strings, read off [existsb]. *)
Lemma existsb_eqb (x : string) (l : list string) :
  existsb (String.eqb x) l = true <-> In x l.
Proof.
  rewrite existsb_exists. split.
  - intros (y & Hy & E). apply String.eqb_eq in E. now subst.
  - intros Hx. exists x. split; [exact Hx | apply String.eqb_refl].
Qed.


(** X6.  Only the station wrapper insists on a key: its constructor hands
    back a client exactly when the key is not empty, and refuses an empty key
    with a [ValueError].  The geocoding constructor accepts any key, the empty
    one included.  Neither makes a network call. *)
Theorem only_the_station_wrapper_requires_a_key (api_key : string) :
  ((exists s, run (WeatherStationAPI.__init__ api_key) = (Returned s, []))
   <-> api_key <> EmptyString)
  /\ (api_key = EmptyString ->
        run (WeatherStationAPI.__init__ api_key)
        = (Raised (Instance ValueError (JStr "API key must be provided.")), []))
  /\ (exists s,
        run (GeocodingAPI.__init__ api_key) = (Returned s, [])
        /\ GeocodingAPI.url s
           = "https://api.openweathermap.org/geo/1.0/direct?&appid=" ++ api_key).
Proof.
  split; [|split].
  - destruct api_key as [|c k]; split.
    + intros (s & Hs). discriminate.
    + intros Hk. now destruct Hk.
    + discriminate.
    + intros _. eexists. reflexivity.
  - intros ->. reflexivity.
  - eexists. split; reflexivity.
Qed.
End Constructors.

(** ** What a method hands back *)

Section Answers.
Context `{Collaborators}.

(** X7.  A 200 answer to [get_overview] whose body is a JSON object yields
    its [weather_overview] entry, or the text "No overview available." when
    the object has none.  A body that is JSON but not an object lets an
    [AttributeError] out, and a body that is not JSON a [JSONDecodeError]:
    neither is caught. *)
Theorem overview_answer (s : OneCallAPI.self) :
  status_code (http_get (OneCallAPI.get_overview_url s)) = 200 ->
  (forall fields,
     json_body (http_get (OneCallAPI.get_overview_url s)) = Some (JObj fields) ->
     run (OneCallAPI.get_overview s)
     = (Returned (Value match lookup "weather_overview" fields with
                        | Some v => v
                        | None => JStr "No overview available."
                        end),
        [HttpGet (OneCallAPI.get_overview_url s)]))
  /\ (forall j,
        json_body (http_get (OneCallAPI.get_overview_url s)) = Some j ->
        (forall fields, j <> JObj fields) ->
        exists e,
          run (OneCallAPI.get_overview s)
          = (Raised e, [HttpGet (OneCallAPI.get_overview_url s)])
          /\ inst_class e = AttributeError)
  /\ (json_body (http_get (OneCallAPI.get_overview_url s)) = None ->
        exists e,
          run (OneCallAPI.get_overview s)
          = (Raised e, [HttpGet (OneCallAPI.get_overview_url s)])
          /\ inst_class e = JSONDecodeError).
Proof.
  intros Hs. apply Z.eqb_eq in Hs.
  unfold OneCallAPI.get_overview. rewrite get_classified, Hs.
  unfold bind, response_json, get, ret, throw.
  split; [|split].
  - intros fields ->. now destruct (lookup "weather_overview" fields).
  - intros j -> Hj.
    destruct j as [| | | | | |fields];
      try (eexists; split; reflexivity).
    now destruct (Hj fields).
  - intros ->. eexists. split; reflexivity.
Qed.

(** X8.  On a 200 answer the current-weather wrapper parses JSON only in its
    json mode.  In html mode it hands back the text of the answer and in xml
    mode the raw bytes, whatever the body; in json mode it hands back the
    parsed body, and a body that is not JSON lets a [JSONDecodeError] out. *)
Theorem markup_modes_skip_the_json_parser (s : CurrentWeatherAPI.self) :
  status_code (http_get (CurrentWeatherAPI.url s)) = 200 ->
  (CurrentWeatherAPI.mode s = "html" ->
     run (CurrentWeatherAPI.get_weather s)
     = (Returned (Value (JStr (text (http_get (CurrentWeatherAPI.url s))))),
        [HttpGet (CurrentWeatherAPI.url s)]))
  /\ (CurrentWeatherAPI.mode s = "xml" ->
        run (CurrentWeatherAPI.get_weather s)
        = (Returned (CurrentWeatherResponse
                       (Bytes (content (http_get (CurrentWeatherAPI.url s)))) "xml"),
           [HttpGet (CurrentWeatherAPI.url s)]))
  /\ (CurrentWeatherAPI.mode s = "json" ->
        (forall j,
           json_body (http_get (CurrentWeatherAPI.url s)) = Some j ->
           run (CurrentWeatherAPI.get_weather s)
           = (Returned (CurrentWeatherResponse (Parsed j) "json"),
              [HttpGet (CurrentWeatherAPI.url s)]))
        /\ (json_body (http_get (CurrentWeatherAPI.url s)) = None ->
              exists e,
                run (CurrentWeatherAPI.get_weather s)
                = (Raised e, [HttpGet (CurrentWeatherAPI.url s)])
                /\ inst_class e = JSONDecodeError)).
Proof.
  intros Hs. apply Z.eqb_eq in Hs.
  unfold CurrentWeatherAPI.get_weather. rewrite get_classified, Hs.
  split; [|split]; intros Hmode; rewrite ?Hmode; cbn; try reflexivity.
  unfold bind, response_json, ret, throw. split.
  - now intros j ->.
  - intros ->. eexists. split; reflexivity.
Qed.

(** X9.  [register_station] hands back a station exactly when the answer
    has status 201 and a JSON body; the station is built from that body, and
    one POST has been made.  A 200 is not a success for it. *)
Theorem station_is_registered_on_201_only (s : WeatherStationAPI.self)
    (station_data : json) (v : retval) (log : list event) :
  run (WeatherStationAPI.register_station s station_data) = (Returned v, log)
  <-> exists j,
        status_code (http_post (WeatherStationAPI.url s) station_data
                       (WeatherStationAPI.headers s)) = 201
        /\ json_body (http_post (WeatherStationAPI.url s) station_data
                        (WeatherStationAPI.headers s)) = Some j
        /\ v = WeatherStation j
        /\ log = [HttpPost (WeatherStationAPI.url s) station_data].
Proof.
  unfold WeatherStationAPI.register_station. rewrite post_classified.
  destruct (status_code _ =? 201) eqn:E.
  - apply Z.eqb_eq in E. unfold bind, response_json, ret, throw.
    destruct (json_body _) as [j|].
    + split.
      * intros [= <- <-]. now exists j.
      * intros (j' & _ & [= <-] & -> & ->). reflexivity.
    + split; [discriminate | intros (j' & _ & Hj & _); discriminate].
  - apply Z.eqb_neq in E. split; [discriminate|].
    intros (j & Hs & _). contradiction.
Qed.

(** X10.  The message taken from an answer that is not a success is the
    [message] entry of the body when the body is a JSON object that has one,
    whatever the type of the entry, and the raw text in every other case: a
    body that is not JSON, a JSON value that is not an object, an object
    without the entry.  The extraction lets no exception out and makes no
    call. *)
Theorem message_extraction_falls_back_to_text (data : response) (log : list event) :
  (forall fields v,
     json_body data = Some (JObj fields) -> lookup "message" fields = Some v ->
     error_message data log = (Returned v, log))
  /\ (forall fields,
        json_body data = Some (JObj fields) -> lookup "message" fields = None ->
        error_message data log = (Returned (JStr (text data)), log))
  /\ (forall j,
        json_body data = Some j -> (forall fields, j <> JObj fields) ->
        error_message data log = (Returned (JStr (text data)), log))
  /\ (json_body data = None ->
        error_message data log = (Returned (JStr (text data)), log)).
Proof.
  rewrite error_message_spec. repeat split.
  - now intros fields v -> ->.
  - now intros fields -> ->.
  - intros j -> Hj. destruct j as [| | | | | |fields]; try reflexivity.
    now destruct (Hj fields).
  - now intros ->.
Qed.


(** The network calls of a constructor: the geocoder lookup of a place
    name, if any. *)
Lemma constructor_log (i : invocation) :
  is_method i = false ->
  snd (invoke i) = match place_name i with
                   | Some place => [Geocode place]
                   | None => []
                   end.
Proof.
  intros Hm. destruct i; try discriminate;
    cbn [invoke place_name]; rewrite snd_observe; unfold run.
  - unfold OneCallAPI.__init__. rewrite bind_quiet by reflexivity.
    etransitivity; [apply base_init_log | now destruct location].
  - unfold CurrentWeatherAPI.__init__.
    rewrite bind_quiet by (intros; destruct (negb _); reflexivity).
    etransitivity; [apply base_init_log | now destruct location].
  - unfold FiveDayForecast.__init__.
    rewrite bind_quiet by (intros; destruct (negb _); reflexivity).
    etransitivity; [apply base_init_log | now destruct location].
  - unfold AirPollutionAPI.__init__. rewrite bind_quiet by reflexivity.
    etransitivity; [apply base_init_log | now destruct location].
  - reflexivity.
  - unfold WeatherStationAPI.__init__. destruct (negb _); reflexivity.
Qed.

End Answers.

(** ** The URLs of the requests *)

(** The first replacement of the one-call methods, on a URL whose query
    holds no question mark of its own: the path is swapped and the query is
    left as it is. *)
Lemma onecall_path_swap (new rest : string) :
  has_char "?" rest = false ->
  replace "onecall?" new ("https://api.openweathermap.org/data/3.0/onecall?" ++ rest)
  = "https://api.openweathermap.org/data/3.0/" ++ new ++ rest.
Proof.
  intros Hrest.
  transitivity ("https://api.openweathermap.org/data/3.0/" ++ new
                  ++ replace_scan "onecall?" new O rest); [reflexivity|].
  now rewrite (replace_scan_absent "?" "onecall?" new rest).
Qed.


Lemma geocoding_path_swap (new rest : string) :
  has_char "?" rest = false ->
  replace "direct?" new ("https://api.openweathermap.org/geo/1.0/direct?" ++ rest)
  = "https://api.openweathermap.org/geo/1.0/" ++ new ++ rest.
Proof.
  intros Hrest.
  transitivity ("https://api.openweathermap.org/geo/1.0/" ++ new
                  ++ replace_scan "direct?" new O rest); [reflexivity|].
  now rewrite (replace_scan_absent "?" "direct?" new rest).
Qed.

(** A pattern that occurs in a text is found in it. *)
Lemma contains_middle (p a b : string) : contains p (a ++ p ++ b) = true.
Proof.
  induction a as [|x a IH].
  - cbn [append]. destruct p as [|y p]; [now destruct b|].
    change (String y p ++ b) with (String y (p ++ b)).
    cbn [contains].
    change (String y (p ++ b)) with (String y p ++ b).
    now rewrite startswith_refl_app.
  - change (String x a ++ p ++ b) with (String x (a ++ p ++ b)).
    cbn [contains]. rewrite IH. apply orb_true_r.
Qed.

Section Urls.
Context `{Collaborators}.

(** What the other constructors hand back, when they do. *)
Lemma base_init_returned (api_key : string) (location : location_arg)
    (language units : string) (b : OpenWeatherMapAPI.self) (log log' : list event) :
  OpenWeatherMapAPI.__init__ api_key location language units log = (Returned b, log') ->
  exists lat lon, b = OpenWeatherMapAPI.Self api_key (lat, lon) language units.
Proof.
  unfold OpenWeatherMapAPI.__init__. destruct location as [place | items].
  - unfold bind, emit. cbn.
    destruct (geocode place) as [[lat lon]|]; [|discriminate].
    intros [= <- _]. now exists (NFloat lat), (NFloat lon).
  - destruct items as [|[|lat|] [|[|lon|] [|]]]; try discriminate.
    destruct (negb _); [discriminate|].
    intros [= <- _]. now exists lat, lon.
Qed.

Lemma current_init_returned (api_key : string) (location : location_arg)
    (language units mode : string) (s : CurrentWeatherAPI.self) (log : list event) :
  run (CurrentWeatherAPI.__init__ api_key location language units mode)
  = (Returned s, log) ->
  exists rest,
    CurrentWeatherAPI.url s
    = "https://api.openweathermap.org/data/2.5/weather?lat=" ++ rest.
Proof.
  unfold run, CurrentWeatherAPI.__init__. intros Hrun.
  apply bind_returned in Hrun as (base & log1 & _ & Hret).
  destruct (negb _); [discriminate|].
  injection Hret as <- _. eexists. reflexivity.
Qed.

Lemma air_pollution_init_returned (api_key : string) (location : location_arg)
    (s : AirPollutionAPI.self) (log : list event) :
  run (AirPollutionAPI.__init__ api_key location) = (Returned s, log) ->
  exists lat lon,
    AirPollutionAPI.url s
    = "https://api.openweathermap.org/data/2.5/air_pollution?"
        ++ "lat=" ++ format_number lat ++ "&lon=" ++ format_number lon
        ++ "&appid=" ++ api_key.
Proof.
  unfold run, AirPollutionAPI.__init__. intros Hrun.
  apply bind_returned in Hrun as (base & log1 & Hbase & Hret).
  apply base_init_returned in Hbase as (lat & lon & ->).
  injection Hret as <- _. now exists lat, lon.
Qed.

Lemma geocoding_init_returned (api_key : string) (s : GeocodingAPI.self)
    (log : list event) :
  run (GeocodingAPI.__init__ api_key) = (Returned s, log) ->
  GeocodingAPI.url s
  = "https://api.openweathermap.org/geo/1.0/direct?" ++ "&appid=" ++ api_key.
Proof. intros [= <- _]. reflexivity. Qed.

Lemma station_init_returned (api_key : string) (s : WeatherStationAPI.self)
    (log : list event) :
  run (WeatherStationAPI.__init__ api_key) = (Returned s, log) ->
  WeatherStationAPI.url s
  = "https://api.openweathermap.org/data/3.0/stations?appid=" ++ api_key
  /\ WeatherStationAPI.headers s = [("Content-Type", "application/json")].
Proof.
  unfold run, WeatherStationAPI.__init__.
  destruct (negb _); [discriminate|]. intros [= <- _]. split; reflexivity.
Qed.
End Urls.

Section UrlProperties.
Context `{Collaborators}.

(** X13.  On a client that its constructor built from parameters without a
    question mark, the time-machine and the day-summary requests keep the
    query of the base URL as it is: only [onecall] in the path becomes
    [onecall/timemachine] or [onecall/day_summary], and [dt] or [date] is
    added at the end. *)
Theorem time_machine_and_day_summary_keep_the_query (api_key : string)
    (location : location_arg) (language units : string) (s : OneCallAPI.self)
    (log : list event) (timestamp : Z) (date : string) :
  (forall f, has_char "?" (float_str f) = false) ->
  has_char "?" api_key = false ->
  has_char "?" language = false ->
  has_char "?" units = false ->
  run (OneCallAPI.__init__ api_key location language units) = (Returned s, log) ->
  exists query,
    OneCallAPI.url s = "https://api.openweathermap.org/data/3.0/onecall?" ++ query
    /\ OneCallAPI.get_timed_weather_url s timestamp
       = "https://api.openweathermap.org/data/3.0/onecall/timemachine?" ++ query
           ++ "&dt=" ++ str_int timestamp
    /\ OneCallAPI.get_aggregation_url s date
       = "https://api.openweathermap.org/data/3.0/onecall/day_summary?" ++ query
           ++ "&date=" ++ date.
Proof.
  intros Hf Hk Hl Hu Hrun.
  apply onecall_init_returned in Hrun as (lat & lon & ->).
  exists ("lat=" ++ format_number lat ++ "&lon=" ++ format_number lon
            ++ "&appid=" ++ api_key ++ "&lang=" ++ language ++ "&units=" ++ units).
  assert (Hq : has_char "?"
                 ("lat=" ++ format_number lat ++ "&lon=" ++ format_number lon
                    ++ "&appid=" ++ api_key ++ "&lang=" ++ language
                    ++ "&units=" ++ units) = false).
  { rewrite !has_char_app, Hk, Hl, Hu,
      !(format_number_chars "?") by (trivial; reflexivity).
    reflexivity. }
  split; [reflexivity|].
  unfold OneCallAPI.get_timed_weather_url, OneCallAPI.get_aggregation_url.
  cbn [OneCallAPI.url].
  change ("https://api.openweathermap.org/data/3.0/onecall?lat=" ++ ?x)
    with ("https://api.openweathermap.org/data/3.0/onecall?" ++ "lat=" ++ x).
  rewrite !onecall_path_swap by exact Hq.
  split; now rewrite ?append_assoc.
Qed.


(** X15.  On a client that its constructor built from a key without a
    question mark, the zip lookup asks [zip] and the reverse lookup asks
    [reverse] instead of [direct], with the key as the constructor wrote it;
    the zip code and the country are added after the replacement and are
    sent as given. *)
Theorem zip_and_reverse_lookups_swap_the_path (api_key : string)
    (s : GeocodingAPI.self) (log : list event) (zip_code country : string)
    (latitude longitude : number) (limit : Z) :
  (forall f, has_char "?" (float_str f) = false) ->
  has_char "?" api_key = false ->
  run (GeocodingAPI.__init__ api_key) = (Returned s, log) ->
  snd (run (GeocodingAPI.get_by_zip s zip_code country))
  = [HttpGet ("https://api.openweathermap.org/geo/1.0/zip?&appid=" ++ api_key
                ++ "&zip=" ++ zip_code ++ "," ++ country)]
  /\ GeocodingAPI.get_by_coordinates_url s latitude longitude limit
     = "https://api.openweathermap.org/geo/1.0/reverse?&appid=" ++ api_key
         ++ "&lat=" ++ format_number latitude
         ++ "&lon=" ++ format_number longitude ++ "&limit=" ++ str_int limit.
Proof.
  intros Hf Hk Hrun. apply geocoding_init_returned in Hrun as Hurl.
  split.
  - unfold GeocodingAPI.get_by_zip. rewrite Hurl.
    rewrite geocoding_path_swap by (rewrite has_char_app, Hk; reflexivity).
    rewrite ?append_assoc. apply get_then_settles. settle.
  - unfold GeocodingAPI.get_by_coordinates_url. rewrite Hurl, ?append_assoc.
    rewrite geocoding_path_swap; [now rewrite ?append_assoc|].
    rewrite !has_char_app, Hk, !(format_number_chars "?"),
      (str_int_chars "?") by (trivial; reflexivity).
    reflexivity.
Qed.

(** X16.  A field that is present adds one fragment to the URL that is
    asked for: an exclusion list whose items join to a non-empty text adds
    [&exclude=] and the items in their order, separated by commas; a
    non-empty state code is added to the [q] parameter after the country,
    before the limit. *)
Theorem present_optional_fields_add_one_fragment :
  (forall (s : OneCallAPI.self) (exclude : list string),
     str_truthy (join "," exclude) = true ->
     snd (run (OneCallAPI.get_weather s exclude))
     = [HttpGet (OneCallAPI.url s ++ "&exclude=" ++ join "," exclude)])
  /\ (forall (s : GeocodingAPI.self) (city country code : string) (limit : Z),
        code <> EmptyString ->
        1 <= limit <= 5 ->
        snd (run (GeocodingAPI.get_by_city s city country (Some code) limit))
        = [HttpGet (GeocodingAPI.url s ++ "&q=" ++ city ++ "," ++ country
                      ++ "," ++ code ++ "&limit=" ++ str_int limit)]).
Proof.
  split.
  - intros s exclude Hj.
    assert (Hurl : OneCallAPI.get_weather_url s exclude
                   = OneCallAPI.url s ++ "&exclude=" ++ join "," exclude).
    { unfold OneCallAPI.get_weather_url.
      destruct exclude as [|x rest]; [discriminate|].
      cbn [list_truthy]. now rewrite Hj. }
    rewrite <- Hurl. unfold OneCallAPI.get_weather.
    apply get_then_settles. settle.
  - intros s city country code limit Hc Hl.
    assert (Hurl : GeocodingAPI.get_by_city_url s city country (Some code) limit
                   = GeocodingAPI.url s ++ "&q=" ++ city ++ "," ++ country
                       ++ "," ++ code ++ "&limit=" ++ str_int limit).
    { unfold GeocodingAPI.get_by_city_url.
      destruct code as [|c code]; [now destruct Hc|].
      cbn [str_truthy]. now rewrite ?append_assoc. }
    rewrite <- Hurl. unfold GeocodingAPI.get_by_city.
    assert (E : (limit >? 5) || (limit <? 1) = false).
    { apply orb_false_iff. split; [|apply Z.ltb_ge; lia].
      rewrite Z.gtb_ltb. apply Z.ltb_ge. lia. }
    rewrite E. apply get_then_settles. settle.
Qed.

(** X17.  With a limit inside its bounds, the reverse lookup makes its
    request exactly when the latitude is in [-90, 90] and the longitude in
    [-180, 180]; coordinates out of range, nan and infinities included, are
    refused with a [ValueError] and no call. *)
Theorem reverse_lookup_checks_the_coordinates (s : GeocodingAPI.self)
    (latitude longitude : number) (limit : Z) :
  1 <= limit <= 5 ->
  (in_range (-90) latitude 90 /\ in_range (-180) longitude 180 ->
     snd (run (GeocodingAPI.get_by_coordinates s latitude longitude limit))
     = [HttpGet (GeocodingAPI.get_by_coordinates_url s latitude longitude limit)])
  /\ (~ (in_range (-90) latitude 90 /\ in_range (-180) longitude 180) ->
        run (GeocodingAPI.get_by_coordinates s latitude longitude limit)
        = (Raised (Instance ValueError
             (JStr "Latitude must be between -90 and 90, and longitude must be between -180 and 180.")),
           [])).
Proof.
  intros Hl. unfold GeocodingAPI.get_by_coordinates.
  assert (E : (limit >? 5) || (limit <? 1) = false).
  { apply orb_false_iff. split; [|apply Z.ltb_ge; lia].
    rewrite Z.gtb_ltb. apply Z.ltb_ge. lia. }
  rewrite E. split.
  - intros [H1 H2]. apply between_in_range in H1, H2. rewrite H1, H2. cbn [andb negb].
    apply get_then_settles. settle.
  - intros Hn.
    destruct (between (-90) latitude 90 && between (-180) longitude 180) eqn:B;
      [|reflexivity].
    apply andb_true_iff in B as [B1 B2]. apply between_in_range in B1, B2.
    now destruct Hn.
Qed.

(** X18.  The printed form of a client shows the key in clear, whatever
    the class name and the other fields. *)
Theorem printed_client_shows_the_key (name : string) (s : OpenWeatherMapAPI.self) :
  contains (OpenWeatherMapAPI.api_key s) (__str__ name s) = true.
Proof.
  unfold __str__.
  rewrite <- (append_assoc name "(api_key=").
  apply contains_middle.
Qed.
End UrlProperties.

Section Host.
Context `{Collaborators}.

(** X19.  Every request of a method called on a client that its
    constructor built goes to [https://api.openweathermap.org/], whatever the
    key, the language, the units and the arguments of the call: the
    replacements that rewrite the path never reach the scheme or the host.
    The constructors make no request to the service at all. *)
Theorem requests_go_to_the_service_host (i : invocation) (ev : event)
    (url : string) :
  built i ->
  In ev (snd (invoke i)) ->
  url_of ev = Some url ->
  startswith service_host url = true.
Proof.
  intros Hb Hin Hurl.
  destruct (is_method i) eqn:Hm.
  - destruct (passes_validation i) eqn:Hv.
    + destruct (method_log i Hm Hv) as (ev' & Hreq & Hlog).
      rewrite Hlog in Hin. destruct Hin as [<- | []].
      destruct i; try discriminate; cbn [built] in Hb;
        cbv beta iota delta [request] in Hreq; apply some_inj in Hreq; subst ev';
        cbn [url_of] in Hurl; apply some_inj in Hurl; subst url.
      * destruct Hb as (k & l & lang & u & log & Hrun).
        apply onecall_init_returned in Hrun as (lat & lon & ->).
        unfold OneCallAPI.get_weather_url. cbn [OneCallAPI.url].
        now destruct (str_truthy _).
      * destruct Hb as (k & l & lang & u & log & Hrun).
        apply onecall_init_returned in Hrun as (lat & lon & ->). reflexivity.
      * destruct Hb as (k & l & lang & u & log & Hrun).
        apply onecall_init_returned in Hrun as (lat & lon & ->). reflexivity.
      * destruct Hb as (k & l & lang & u & log & Hrun).
        apply onecall_init_returned in Hrun as (lat & lon & ->). reflexivity.
      * destruct Hb as (k & l & lang & u & m & log & Hrun).
        apply current_init_returned in Hrun as (rest & ->). reflexivity.
      * destruct Hb as (k & l & c & lang & u & m & log & Hrun).
        apply forecast_init_returned in Hrun as (_ & _ & ->).
        now destruct (c >? 0).
      * destruct Hb as (k & l & log & Hrun).
        apply air_pollution_init_returned in Hrun as (lat & lon & ->). reflexivity.
      * destruct Hb as (k & l & log & Hrun).
        apply air_pollution_init_returned in Hrun as (lat & lon & ->). reflexivity.
      * destruct Hb as (k & l & log & Hrun).
        apply air_pollution_init_returned in Hrun as (lat & lon & ->). reflexivity.
      * destruct Hb as (k & log & Hrun).
        apply geocoding_init_returned in Hrun.
        unfold GeocodingAPI.get_by_city_url. rewrite Hrun.
        destruct state_code as [code|]; [now destruct (str_truthy code) | reflexivity].
      * destruct Hb as (k & log & Hrun).
        apply geocoding_init_returned in Hrun. rewrite Hrun. reflexivity.
      * destruct Hb as (k & log & Hrun).
        apply geocoding_init_returned in Hrun.
        unfold GeocodingAPI.get_by_coordinates_url. rewrite Hrun. reflexivity.
      * destruct Hb as (k & log & Hrun).
        apply station_init_returned in Hrun as [-> _]. reflexivity.
    + destruct (method_refused i Hm Hv) as (message & Hrun).
      rewrite Hrun in Hin. destruct Hin.
  - rewrite (constructor_log i Hm) in Hin.
    destruct (place_name i); [|destruct Hin].
    destruct Hin as [<- | []]. discriminate.
Qed.
End Host.

(** ** The properties above on the small world *)

Lemma non_success_answer_never_returns_witness :
  exists ev,
    request (H := replying (plain_reply 503 "Service Unavailable"))
      (AirPollution_get_history sample_air 1606223802 1606482999) = Some ev
    /\ invoke (H := replying (plain_reply 503 "Service Unavailable"))
         (AirPollution_get_history sample_air 1606223802 1606482999)
       = (Some (Instance TypeError
            (JStr "OpenWeatherMapException() takes no arguments")),
          [ev]).
Proof.
  apply (non_success_answer_never_returns
           (H := replying (plain_reply 503 "Service Unavailable"))
           (AirPollution_get_history sample_air 1606223802 1606482999)
           (plain_reply 503 "Service Unavailable"));
    [reflexivity | reflexivity | reflexivity | discriminate].
Defined.

Lemma coordinate_pair_kept_iff_in_range_witness :
  run (OpenWeatherMapAPI.__init__ (H := replying (error_reply 200 "ok"))
         "key" (Tuple [VNum (NInt (-90)); VNum (NInt 180)]) "en" "metric")
  = (Returned (OpenWeatherMapAPI.Self "key" (NInt (-90), NInt 180) "en" "metric"), []).
Proof.
  apply (proj1 (coordinate_pair_kept_iff_in_range
                  (H := replying (error_reply 200 "ok"))
                  "key" [VNum (NInt (-90)); VNum (NInt 180)] "en" "metric")).
  exists (NInt (-90)), (NInt 180).
  repeat split; cbn; lia.
Defined.

Lemma non_finite_coordinate_refused_witness :
  (forall q, FNaN <> FFin q)
  /\ run (OpenWeatherMapAPI.__init__ (H := replying (error_reply 200 "ok"))
            "key" (Tuple [VNum (NFloat FNaN); VNum (NInt 0)]) "en" "metric")
     = (Raised (Instance ValueError
          (JStr "Latitude must be between -90 and 90, and longitude must be between -180 and 180.")),
        []).
Proof.
  split; [discriminate|].
  apply (non_finite_coordinate_refused (H := replying (error_reply 200 "ok"))
           "key" "en" "metric" FNaN (NInt 0)).
  discriminate.
Defined.

Lemma place_name_is_looked_up_once_witness :
  geocode (Collaborators := replying (error_reply 200 "ok")) "Atlantis" = None
  /\ fst (run (OneCallAPI.__init__ (H := replying (error_reply 200 "ok"))
                 "key" (Name "Atlantis") "en" "metric"))
     = Raised (Instance ValueError
         (JStr "Location not found. Please provide a valid location.")).
Proof.
  split; [reflexivity|].
  apply (place_name_is_looked_up_once (H := replying (error_reply 200 "ok"))
           "key" "Atlantis" "en" "metric").
  reflexivity.
Defined.


Lemma only_the_station_wrapper_requires_a_key_witness :
  run (WeatherStationAPI.__init__ (H := replying (error_reply 200 "ok")) EmptyString)
  = (Raised (Instance ValueError (JStr "API key must be provided.")), []).
Proof.
  apply (only_the_station_wrapper_requires_a_key
           (H := replying (error_reply 200 "ok")) EmptyString).
  reflexivity.
Defined.

Lemma overview_answer_witness :
  run (OneCallAPI.get_overview (H := replying overview_reply) sample_onecall)
  = (Returned (Value (JStr "clear sky")),
     [HttpGet "https://api.openweathermap.org/data/3.0/onecall/overview?lat=51.5&lon=-0.12&appid=key&units=metric"]).
Proof.
  apply (proj1 (overview_answer (H := replying overview_reply) sample_onecall eq_refl)
           [("weather_overview", JStr "clear sky")]).
  reflexivity.
Defined.

Lemma markup_modes_skip_the_json_parser_witness :
  run (CurrentWeatherAPI.get_weather (H := replying (plain_reply 200 "<html>sunny</html>"))
         sample_current_html)
  = (Returned (Value (JStr "<html>sunny</html>")),
     [HttpGet (CurrentWeatherAPI.url sample_current_html)]).
Proof.
  apply (proj1 (markup_modes_skip_the_json_parser
                  (H := replying (plain_reply 200 "<html>sunny</html>"))
                  sample_current_html eq_refl)).
  reflexivity.
Defined.

Lemma station_is_registered_on_201_only_witness :
  run (WeatherStationAPI.register_station (H := replying station_reply)
         sample_station (JObj [("name", JStr "roof")]))
  = (Returned (WeatherStation (JObj [("ID", JStr "583436dd9643a9000196b8d6")])),
     [HttpPost "https://api.openweathermap.org/data/3.0/stations?appid=key"
        (JObj [("name", JStr "roof")])]).
Proof.
  apply (proj2 (station_is_registered_on_201_only (H := replying station_reply)
                  sample_station (JObj [("name", JStr "roof")]) _ _)).
  exists (JObj [("ID", JStr "583436dd9643a9000196b8d6")]).
  repeat split.
Defined.

Lemma message_extraction_falls_back_to_text_witness :
  error_message (Response 404 "[]" "[]" (Some (JArr []))) [] = (Returned (JStr "[]"), []).
Proof.
  apply (proj1 (proj2 (proj2 (message_extraction_falls_back_to_text
                                (Response 404 "[]" "[]" (Some (JArr []))) [])))
           (JArr []));
    [reflexivity | discriminate].
Defined.



Lemma time_machine_and_day_summary_keep_the_query_witness :
  exists query,
    OneCallAPI.url sample_onecall
    = "https://api.openweathermap.org/data/3.0/onecall?" ++ query
    /\ OneCallAPI.get_timed_weather_url sample_onecall 1643803200
       = "https://api.openweathermap.org/data/3.0/onecall/timemachine?" ++ query
           ++ "&dt=" ++ str_int 1643803200
    /\ OneCallAPI.get_aggregation_url sample_onecall "2020-03-04"
       = "https://api.openweathermap.org/data/3.0/onecall/day_summary?" ++ query
           ++ "&date=" ++ "2020-03-04".
Proof.
  apply (time_machine_and_day_summary_keep_the_query
           (H := replying (error_reply 200 "ok"))
           "key" london "en" "metric" sample_onecall [] 1643803200 "2020-03-04");
    try reflexivity.
  intros f. apply sample_float_str_chars. reflexivity.
Defined.


Lemma zip_and_reverse_lookups_swap_the_path_witness :
  snd (run (GeocodingAPI.get_by_zip (H := replying (error_reply 200 "ok"))
              sample_geocoding "E14" "GB"))
  = [HttpGet "https://api.openweathermap.org/geo/1.0/zip?&appid=key&zip=E14,GB"]
  /\ GeocodingAPI.get_by_coordinates_url (H := replying (error_reply 200 "ok"))
       sample_geocoding (NFloat (FFin (515 # 10))) (NFloat (FFin (- (12 # 100)))) 5
     = "https://api.openweathermap.org/geo/1.0/reverse?&appid=key&lat=51.5&lon=-0.12&limit=5".
Proof.
  apply (zip_and_reverse_lookups_swap_the_path
           (H := replying (error_reply 200 "ok"))
           "key" sample_geocoding [] "E14" "GB"
           (NFloat (FFin (515 # 10))) (NFloat (FFin (- (12 # 100)))) 5);
    try reflexivity.
  intros f. apply sample_float_str_chars. reflexivity.
Defined.

Lemma present_optional_fields_add_one_fragment_witness :
  snd (run (OneCallAPI.get_weather (H := replying (error_reply 200 "ok"))
              sample_onecall ["minutely"; "alerts"]))
  = [HttpGet "https://api.openweathermap.org/data/3.0/onecall?lat=51.5&lon=-0.12&appid=key&lang=en&units=metric&exclude=minutely,alerts"]
  /\ snd (run (GeocodingAPI.get_by_city (H := replying (error_reply 200 "ok"))
                 sample_geocoding "Austin" "US" (Some "TX") 2))
     = [HttpGet "https://api.openweathermap.org/geo/1.0/direct?&appid=key&q=Austin,US,TX&limit=2"].
Proof.
  split.
  - apply (proj1 (present_optional_fields_add_one_fragment
                    (H := replying (error_reply 200 "ok")))
             sample_onecall ["minutely"; "alerts"]).
    reflexivity.
  - apply (proj2 (present_optional_fields_add_one_fragment
                    (H := replying (error_reply 200 "ok")))
             sample_geocoding "Austin" "US" "TX" 2); [discriminate | lia].
Defined.

Lemma reverse_lookup_checks_the_coordinates_witness :
  run (GeocodingAPI.get_by_coordinates (H := replying (error_reply 200 "ok"))
         sample_geocoding (NInt 91) (NInt 0) 1)
  = (Raised (Instance ValueError
       (JStr "Latitude must be between -90 and 90, and longitude must be between -180 and 180.")),
     []).
Proof.
  apply (reverse_lookup_checks_the_coordinates (H := replying (error_reply 200 "ok"))
           sample_geocoding (NInt 91) (NInt 0) 1); [lia|].
  cbn. lia.
Defined.

Lemma requests_go_to_the_service_host_witness :
  startswith service_host
    "https://api.openweathermap.org/data/3.0/onecall/overview?lat=51.5&lon=-0.12&appid=key&units=metric"
  = true.
Proof.
  apply (requests_go_to_the_service_host (H := replying (error_reply 200 "ok"))
           (OneCall_get_overview sample_onecall)
           (HttpGet "https://api.openweathermap.org/data/3.0/onecall/overview?lat=51.5&lon=-0.12&appid=key&units=metric")).
  - exists "key", london, "en", "metric", []. reflexivity.
  - left. reflexivity.
  - reflexivity.
Defined.

(** ** The [cnt] parameter of the forecast URL *)

(** No match is counted in a stretch that lacks the first character of the
    pattern. *)
Lemma occurrences_pass (x : ascii) (p a b : string) :
  has_char x a = false ->
  occurrences (String x p) (a ++ b) = occurrences (String x p) b.
Proof.
  induction a as [|y a IH]; intros Hx; [reflexivity|].
  simpl in Hx. apply orb_false_iff in Hx as [Hyx Ha].
  change (String y a ++ b) with (String y (a ++ b)).
  cbn [occurrences startswith]. rewrite Ascii.eqb_sym, Hyx. cbn [andb Nat.add].
  exact (IH Ha).
Qed.

(** A text that lacks the first character of the pattern holds no match. *)
Lemma occurrences_absent (x : ascii) (p a : string) :
  has_char x a = false -> occurrences (String x p) a = O.
Proof.
  intros Hx. rewrite <- (append_empty_r a).
  now rewrite occurrences_pass.
Qed.

Section ForecastCount.
Context `{Collaborators}.

(** The client of the forecast constructor holds the arguments it was given,
    and its mode is one of the two that the constructor accepts. *)
Lemma forecast_init_fields (api_key : string) (location : location_arg)
    (count : Z) (language units mode : string) (s : FiveDayForecast.self)
    (log : list event) :
  run (FiveDayForecast.__init__ api_key location count language units mode)
  = (Returned s, log) ->
  (exists lat lon,
     FiveDayForecast.super s
     = OpenWeatherMapAPI.Self api_key (lat, lon) language units)
  /\ (mode = "xml" \/ mode = "json").
Proof.
  unfold run, FiveDayForecast.__init__. intros Hrun.
  apply bind_returned in Hrun as (base & log1 & Hbase & Hret).
  apply base_init_returned in Hbase as (lat & lon & ->).
  destruct (existsb (String.eqb mode) ["xml"; "json"]) eqn:E; [|discriminate].
  cbn [negb] in Hret. injection Hret as <- _. split.
  - now exists lat, lon.
  - apply existsb_eqb in E. cbn in E. intuition congruence.
Qed.

(** The template of the forecast URL, followed by any text, holds the [cnt]
    fragments of that text and no other, when the interpolated parts hold no
    separator. *)
Lemma forecast_base_url_cnt_free (base : OpenWeatherMapAPI.self) (mode tail : string) :
  (forall f, has_char "&" (float_str f) = false) ->
  has_char "&" (OpenWeatherMapAPI.api_key base) = false ->
  has_char "&" (OpenWeatherMapAPI.language base) = false ->
  has_char "&" (OpenWeatherMapAPI.units base) = false ->
  has_char "&" mode = false ->
  occurrences "&cnt=" (FiveDayForecast.base_url base mode ++ tail)
  = occurrences "&cnt=" tail.
Proof.
  intros Hf Hk Hl Hu Hm. unfold FiveDayForecast.base_url.
  destruct base as [key [lat lon] lang units].
  cbn [OpenWeatherMapAPI.location OpenWeatherMapAPI.api_key
       OpenWeatherMapAPI.language OpenWeatherMapAPI.units fst snd] in *.
  assert (Hlat : has_char "&" (format_number lat) = false)
    by (apply format_number_chars; trivial).
  assert (Hlon : has_char "&" (format_number lon) = false)
    by (apply format_number_chars; trivial).
  rewrite ?append_assoc.
  rewrite occurrences_pass by reflexivity.
  rewrite occurrences_pass by assumption.
  change (occurrences "&cnt=" ("&lon=" ++ ?x)) with (occurrences "&cnt=" x).
  rewrite occurrences_pass by assumption.
  change (occurrences "&cnt=" ("&appid=" ++ ?x)) with (occurrences "&cnt=" x).
  rewrite occurrences_pass by assumption.
  change (occurrences "&cnt=" ("&lang=" ++ ?x)) with (occurrences "&cnt=" x).
  rewrite occurrences_pass by assumption.
  change (occurrences "&cnt=" ("&units=" ++ ?x)) with (occurrences "&cnt=" x).
  rewrite occurrences_pass by assumption.
  change (occurrences "&cnt=" ("&mode=" ++ ?x)) with (occurrences "&cnt=" x).
  now rewrite occurrences_pass by assumption.
Qed.

(** C10, for parameters that hold no separator of their own.  When the
    rendering of floats, the key, the language and the units contain no [&],
    a forecast client built with a count of zero or less has the URL of the
    template and no [cnt] parameter occurs in it; a client built with a
    positive count has that URL followed by [&cnt=count], and this is the
    one [cnt] parameter of the URL.  A parameter of the query other than the
    first is introduced by [&], so the parameters named [cnt] are the
    occurrences of [&cnt=].  [get_forecast] asks for that URL. *)
Theorem forecast_cnt_parameter (api_key : string) (location : location_arg)
    (count : Z) (language units mode : string) (s : FiveDayForecast.self)
    (log : list event) :
  (forall f, has_char "&" (float_str f) = false) ->
  has_char "&" api_key = false ->
  has_char "&" language = false ->
  has_char "&" units = false ->
  run (FiveDayForecast.__init__ api_key location count language units mode)
  = (Returned s, log) ->
  (count <= 0 ->
     FiveDayForecast.url s = FiveDayForecast.base_url (FiveDayForecast.super s) mode
     /\ occurrences "&cnt=" (FiveDayForecast.url s) = O
     /\ contains "&cnt=" (FiveDayForecast.url s) = false)
  /\ (0 < count ->
        FiveDayForecast.url s
        = FiveDayForecast.base_url (FiveDayForecast.super s) mode
            ++ "&cnt=" ++ str_int count
        /\ occurrences "&cnt=" (FiveDayForecast.url s) = 1%nat
        /\ occurrences "&cnt=" (FiveDayForecast.base_url (FiveDayForecast.super s) mode)
           = O)
  /\ snd (run (FiveDayForecast.get_forecast s)) = [HttpGet (FiveDayForecast.url s)].
Proof.
  intros Hf Hk Hl Hu Hrun.
  destruct (forecast_init_fields _ _ _ _ _ _ _ _ Hrun) as ((lat & lon & Hsuper) & Hmode).
  apply forecast_init_returned in Hrun as (_ & _ & Hurl).
  assert (Hm : has_char "&" mode = false) by (destruct Hmode as [-> | ->]; reflexivity).
  assert (Hfree : forall tail,
            occurrences "&cnt=" (FiveDayForecast.base_url (FiveDayForecast.super s) mode
                                   ++ tail)
            = occurrences "&cnt=" tail).
  { intros tail. apply forecast_base_url_cnt_free; trivial; now rewrite Hsuper. }
  assert (Hbase : occurrences "&cnt="
                    (FiveDayForecast.base_url (FiveDayForecast.super s) mode) = O).
  { rewrite <- (append_empty_r (FiveDayForecast.base_url _ _)). now rewrite Hfree. }
  split; [|split].
  - intros Hc.
    assert (E : FiveDayForecast.url s
                = FiveDayForecast.base_url (FiveDayForecast.super s) mode).
    { rewrite Hurl.
      destruct (count >? 0) eqn:G; [apply Z.gtb_lt in G; lia | reflexivity]. }
    rewrite E. split; [reflexivity|]. split; [exact Hbase|].
    apply forecast_base_url_without_cnt; trivial; now rewrite Hsuper.
  - intros Hc.
    assert (E : FiveDayForecast.url s
                = FiveDayForecast.base_url (FiveDayForecast.super s) mode
                    ++ "&cnt=" ++ str_int count).
    { rewrite Hurl. destruct (count >? 0) eqn:G; [reflexivity|].
      rewrite Z.gtb_ltb in G. apply Z.ltb_ge in G. lia. }
    rewrite E. split; [reflexivity|]. split; [|exact Hbase].
    rewrite Hfree.
    change (occurrences "&cnt=" ("&cnt=" ++ str_int count))
      with (S (occurrences "&cnt=" (str_int count))).
    now rewrite occurrences_absent by (apply str_int_chars; reflexivity).
  - unfold FiveDayForecast.get_forecast. apply get_then_settles. settle.
Qed.
End ForecastCount.

(** C10, as stated, at a key that holds the text of a [cnt] parameter: with
    a count of -1 the URL carries [&cnt=5] all the same, and with a count of 3
    it carries two [cnt] parameters. *)
Lemma forecast_url_carries_cnt_of_the_key :
  (exists s log,
     run (FiveDayForecast.__init__ (H := replying (error_reply 200 "ok"))
            "k&cnt=5" london (-1) "en" "metric" "json")
     = (Returned s, log)
     /\ FiveDayForecast.count s = -1
     /\ FiveDayForecast.url s
        = "https://api.openweathermap.org/data/2.5/forecast?lat=51.5&lon=-0.12&appid=k&cnt=5&lang=en&units=metric&mode=json"
     /\ contains "&cnt=" (FiveDayForecast.url s) = true)
  /\ (exists s log,
        run (FiveDayForecast.__init__ (H := replying (error_reply 200 "ok"))
               "k&cnt=5" london 3 "en" "metric" "json")
        = (Returned s, log)
        /\ FiveDayForecast.url s
           = "https://api.openweathermap.org/data/2.5/forecast?lat=51.5&lon=-0.12&appid=k&cnt=5&lang=en&units=metric&mode=json&cnt=3"
        /\ occurrences "&cnt=" (FiveDayForecast.url s) = 2%nat).
Proof.
  split; do 2 eexists; (split; [reflexivity|]); repeat split.
Qed.

Lemma forecast_cnt_parameter_witness :
  (-1 <= 0
   /\ occurrences "&cnt="
        "https://api.openweathermap.org/data/2.5/forecast?lat=51.5&lon=-0.12&appid=key&lang=en&units=metric&mode=json"
      = O)
  /\ (0 < 8
      /\ occurrences "&cnt="
           "https://api.openweathermap.org/data/2.5/forecast?lat=51.5&lon=-0.12&appid=key&lang=en&units=metric&mode=json&cnt=8"
         = 1%nat).
Proof.
  split; (split; [lia|]).
  - apply (proj1 (forecast_cnt_parameter (H := replying (error_reply 200 "ok"))
                    "key" london (-1) "en" "metric" "json"
                    (FiveDayForecast.Self sample_base "json" (-1)
                       "https://api.openweathermap.org/data/2.5/forecast?lat=51.5&lon=-0.12&appid=key&lang=en&units=metric&mode=json")
                    []
                    (fun f => sample_float_str_chars "&" f eq_refl)
                    eq_refl eq_refl eq_refl eq_refl)).
    lia.
  - apply (proj1 (proj2 (forecast_cnt_parameter (H := replying (error_reply 200 "ok"))
                    "key" london 8 "en" "metric" "json"
                    (FiveDayForecast.Self sample_base "json" 8
                       "https://api.openweathermap.org/data/2.5/forecast?lat=51.5&lon=-0.12&appid=key&lang=en&units=metric&mode=json&cnt=8")
                    []
                    (fun f => sample_float_str_chars "&" f eq_refl)
                    eq_refl eq_refl eq_refl eq_refl))).
    lia.
Defined.
